(** * Order/tracking reconciliation of the Etsy management application

    A shallow embedding of the bulk-text handler of [app.py], the batch
    clean-up of [services/excel_service.py] and the ledger accessor and
    reconciliation loop of [services/google_sheets_service.py], followed by
    the properties of these functions.

    Conventions.
    - A Python [str] is a [string]; every character stands for the code
      point of the same number (so the text is in the Latin-1 range).
    - A function that may raise returns a [result].
    - The spreadsheet API is an external collaborator: the response of the
      read and the errors of the writes are inputs ([env]), the writes are
      the list of requests the service sends ([api_call]). *)

From Stdlib Require Import String Ascii List Bool Arith PeanoNat Lia Permutation.
From Stdlib Require Import DecimalString.
Import ListNotations.
Open Scope list_scope.
Open Scope nat_scope.
Open Scope string_scope.

(** ** Python strings *)

Module PyStr.

(** [str.isspace] on one character, for code points below 256:
    U+0009..U+000D, U+001C..U+0020, U+0085 and U+00A0. *)
Definition isspace (c : ascii) : bool :=
  let n := nat_of_ascii c in
  (((9 <=? n) && (n <=? 13)) || ((28 <=? n) && (n <=? 32))
   || (n =? 133) || (n =? 160))%nat.

(** [not s] for a str: true exactly on the empty string. *)
Definition is_empty (s : string) : bool :=
  match s with
  | EmptyString => true
  | String _ _ => false
  end.

Fixpoint lstrip (s : string) : string :=
  match s with
  | EmptyString => EmptyString
  | String c r => if isspace c then lstrip r else s
  end.

Fixpoint rstrip (s : string) : string :=
  match s with
  | EmptyString => EmptyString
  | String c r =>
      let r' := rstrip r in
      if isspace c && is_empty r' then EmptyString else String c r'
  end.

(** [s.strip()] *)
Definition strip (s : string) : string := rstrip (lstrip s).

(** [s.startswith(c)] for a one-character prefix. *)
Definition startswith (c : ascii) (s : string) : bool :=
  match s with
  | String d _ => Ascii.eqb d c
  | EmptyString => false
  end.

(** [s[1:]] *)
Definition tail (s : string) : string :=
  match s with
  | String _ r => r
  | EmptyString => EmptyString
  end.

(** [s.split(sep)] for a one-character separator: every occurrence cuts,
    and the result is never the empty list. *)
Fixpoint split (sep : ascii) (s : string) : list string :=
  match s with
  | EmptyString => [EmptyString]
  | String c r =>
      if Ascii.eqb c sep then EmptyString :: split sep r
      else match split sep r with
           | h :: t => String c h :: t
           | [] => [String c EmptyString]
           end
  end.

(** [s.split(sep, 1)]: at most one cut, at the first occurrence. *)
Fixpoint split1 (sep : ascii) (s : string) : list string :=
  match s with
  | EmptyString => [EmptyString]
  | String c r =>
      if Ascii.eqb c sep then [EmptyString; r]
      else match split1 sep r with
           | h :: t => String c h :: t
           | [] => [String c EmptyString]
           end
  end.

(** [s.replace(c, '')]: every occurrence of the character is removed. *)
Fixpoint remove_char (c : ascii) (s : string) : string :=
  match s with
  | EmptyString => EmptyString
  | String d r =>
      if Ascii.eqb d c then remove_char c r else String d (remove_char c r)
  end.

(** [c in s] *)
Fixpoint contains (c : ascii) (s : string) : bool :=
  match s with
  | EmptyString => false
  | String d r => Ascii.eqb d c || contains c r
  end.

(** [str(n)] for a non-negative int. *)
Definition str_of_nat (n : nat) : string :=
  NilZero.string_of_uint (Nat.to_uint n).

(** [c.lower()] for a code point below 256: the letters A..Z and
    U+00C0..U+00DE (without the sign U+00D7) move up by 32. *)
Definition lower_char (c : ascii) : ascii :=
  let n := nat_of_ascii c in
  if (((65 <=? n) && (n <=? 90))
      || ((192 <=? n) && (n <=? 222) && negb (n =? 215)))%nat
  then ascii_of_nat (n + 32) else c.

(** [s.lower()] *)
Fixpoint lower (s : string) : string :=
  match s with
  | EmptyString => EmptyString
  | String c r => String (lower_char c) (lower r)
  end.

(** [sep.join(parts)] *)
Fixpoint join (sep : string) (parts : list string) : string :=
  match parts with
  | [] => EmptyString
  | [p] => p
  | p :: rest => p ++ sep ++ join sep rest
  end.

(** [s.endswith(suffix)] *)
Fixpoint endswith (suffix s : string) : bool :=
  String.eqb s suffix
  || match s with
     | EmptyString => false
     | String _ r => endswith suffix r
     end.

End PyStr.

(** ** Exceptions and results *)

Inductive exn : Type :=
| KeyError (key : string)
| AttributeError (what : string)
| HttpError (message : string)
| Wrapped (prefix : string) (cause : exn).

Inductive result (A : Type) : Type :=
| Ok (a : A)
| Raise (e : exn).
Arguments Ok {A} a.
Arguments Raise {A} e.

(** ** Python dictionaries with string keys

    A [dict] keeps its keys in the order of their first insertion;
    assigning to a key that is present replaces the value where it stands. *)

Module PyDict.

Definition dict (V : Type) : Type := list (string * V).

(** [d[k] = v] *)
Fixpoint setitem {V : Type} (k : string) (v : V) (d : dict V) : dict V :=
  match d with
  | [] => [(k, v)]
  | (k', v') :: r =>
      if String.eqb k' k then (k', v) :: r else (k', v') :: setitem k v r
  end.

(** [d.get(k)] *)
Fixpoint get {V : Type} (k : string) (d : dict V) : option V :=
  match d with
  | [] => None
  | (k', v') :: r => if String.eqb k' k then Some v' else get k r
  end.

(** [k in d] *)
Definition mem {V : Type} (k : string) (d : dict V) : bool :=
  match get k d with
  | Some _ => true
  | None => false
  end.

Definition items {V : Type} (d : dict V) : list (string * V) := d.
Definition values {V : Type} (d : dict V) : list V := map snd d.
Definition keys {V : Type} (d : dict V) : list string := map fst d.

End PyDict.

(** ** The part of pandas the service uses

    A frame has named columns and rows of cells over the default index
    0, 1, 2, ...; a cell is [None] where the constructor had to pad a short
    row. *)

Module Pandas.

Definition cell : Type := option string.

Record DataFrame : Type := {
  columns : list string;
  rows : list (list cell)
}.

Definition pad (w : nat) (row : list string) : list cell :=
  (map Some row ++ repeat None (w - length row))%list.

(** [pd.DataFrame(data, columns=columns)] for a list of lists. Short
    rows are padded to the longest one; the constructor raises when
    that width differs from the number of column names ([None] here). *)
Definition DataFrame_of (data : list (list string)) (cols : list string)
  : option DataFrame :=
  match data with
  | [] => Some {| columns := cols; rows := [] |}
  | _ :: _ =>
      let w := list_max (map (@length string) data) in
      if (w =? length cols)%nat
      then Some {| columns := cols; rows := map (pad w) data |}
      else None
  end.

(** [df.rename(columns=mapping)] *)
Definition rename (mapping : PyDict.dict string) (df : DataFrame) : DataFrame :=
  {| columns := map (fun c => match PyDict.get c mapping with
                              | Some c' => c'
                              | None => c
                              end) (columns df);
     rows := rows df |}.

(** [df.empty]: some axis has length 0. *)
Definition empty (df : DataFrame) : bool :=
  ((length (rows df) =? 0) || (length (columns df) =? 0))%nat.

(** [len(df)] *)
Definition len (df : DataFrame) : nat := length (rows df).

Fixpoint index_of (name : string) (cols : list string) : option nat :=
  match cols with
  | [] => None
  | c :: r => if String.eqb c name then Some 0
              else option_map S (index_of name r)
  end.

(** [df[name]] used as a Series: a [KeyError] when no column has the
    name; with several columns of that name pandas hands back a frame,
    on which the Series methods the service calls do not exist. *)
Definition getitem (df : DataFrame) (name : string) : result (list cell) :=
  match count_occ string_dec (columns df) name, index_of name (columns df) with
  | 1, Some i => Ok (map (fun row => nth i row None) (rows df))
  | 0, _ => Raise (KeyError name)
  | _, _ => Raise (AttributeError "DataFrame")
  end.

(** [series.astype(str)] on one cell. *)
Definition astype_str (c : cell) : string :=
  match c with
  | Some s => s
  | None => "None"
  end.

End Pandas.

(** ** services/google_sheets_service.py *)

Module GoogleSheetsService.

Import Pandas.

(** Outcome of [values().get(range="Sheet1!A:E").execute()]; the key
    ['values'] is absent from the answer for a blank sheet, which
    [result.get('values', [])] turns into the empty list. *)
Inductive api_response : Type :=
| ApiOk (values : list (list string))
| ApiError (e : exn).

Record datetime : Type := { year : nat; month : nat; day : nat }.

Definition two_digits (n : nat) : string :=
  if (n <? 10)%nat then "0" ++ PyStr.str_of_nat n else PyStr.str_of_nat n.

(** [d.strftime('%d-%m-%Y')]; the year of [datetime.now()] has four
    digits. *)
Definition strftime_dmy (d : datetime) : string :=
  two_digits (day d) ++ "-" ++ two_digits (month d) ++ "-"
  ++ PyStr.str_of_nat (year d).

(** What the service is given by its surroundings during one call. *)
Record env : Type := {
  read_response : api_response;   (* answer to the read of A:E *)
  sheet_id : option nat;          (* answer of [_get_sheet_id] *)
  now : datetime;                 (* [datetime.now()] *)
  update_error : option exn;      (* what [values().batchUpdate] raises, if sent *)
  append_error : option exn       (* what [values().append] raises, if sent *)
}.

Definition tracking_sheet_name : string := "Sheet1".

Definition canonical_columns : list string :=
  ["order_number"; "tracking_number"; "date"; "tracking_link"; "completed"].

Definition column_mapping : PyDict.dict string :=
  [("Order Number", "order_number");
   ("Tracking Number", "tracking_number");
   ("Date Added", "date");
   ("Tracking Link", "tracking_link");
   ("Completed", "completed")].

Definition empty_frame : DataFrame :=
  {| columns := canonical_columns; rows := [] |}.

(** [_get_existing_data]: the whole body sits in [try]; the handler logs
    and returns the empty frame. *)
Definition _get_existing_data (resp : api_response) : result DataFrame :=
  match resp with
  | ApiError _ => Ok empty_frame
  | ApiOk [] => Ok empty_frame
  | ApiOk (header :: data) =>
      match DataFrame_of data header with
      | Some df => Ok (rename column_mapping df)
      | None => Ok empty_frame
      end
  end.

Definition _generate_tracking_link (tracking_number : string) : string :=
  if PyStr.is_empty tracking_number then ""
  else "https://parcelsapp.com/en/tracking/" ++ tracking_number.

(** A row of [rows_to_add]:
    [[clean_order_number, tracking_number, today, tracking_link, False]]. *)
Record LedgerRow : Type := {
  order_number : string;
  tracking_number : string;
  date_added : string;
  tracking_link : string;
  completed : bool
}.

(** An entry of [rows_to_update]. *)
Record update_row : Type := {
  u_row : nat;
  u_order_number : string;
  u_tracking_number : string;
  u_date : string;
  u_tracking_link : string
}.

(** An entry of the batch body: [range_column] and [range_row] stand
    for the A1 range ["<sheet>!<column><row>"], [cell_value] for the
    one-cell block [[[value]]]. *)
Record ValueRange : Type := {
  range_sheet : string;
  range_column : string;
  range_row : nat;
  cell_value : string
}.

Inductive api_call : Type :=
| values_batchUpdate (data : list ValueRange)
| values_append (new_rows : list LedgerRow)
| setDataValidation (sheet : nat) (startRowIndex endRowIndex : nat).

(** The five variables the loop of [bulk_update_orders] updates. *)
Record loop_state : Type := {
  added_count : nat;
  updated_count : nat;
  skipped_count : nat;
  rows_to_add : list LedgerRow;
  rows_to_update : list update_row
}.

Definition initial_state : loop_state :=
  {| added_count := 0; updated_count := 0; skipped_count := 0;
     rows_to_add := []; rows_to_update := [] |}.

(** [str(order_number).strip()], then one leading [#] removed. *)
Definition clean_order_number (order_number : string) : string :=
  let c := PyStr.strip order_number in
  if PyStr.startswith "#" c then PyStr.tail c else c.

(** The column [clean_order] of [existing_df_clean]:
    [.astype(str).str.strip()] then [.str.replace('#', '', regex=False)].
    (A sheet whose own header already names several columns
    [clean_order] is outside this model.) *)
Definition clean_existing (c : cell) : string :=
  PyStr.remove_char "#" (PyStr.strip (astype_str c)).

Definition clean_order (order_column : list cell) : list string :=
  map clean_existing order_column.

(** [existing_df_clean['clean_order'] == clean_order_number] *)
Definition mask (order_column : list cell) (target : string) : list bool :=
  map (fun c => String.eqb c target) (clean_order order_column).

(** [existing_df_clean[mask].index[0]] when [mask.any()]. *)
Fixpoint first_true (m : list bool) : option nat :=
  match m with
  | [] => None
  | true :: _ => Some 0
  | false :: r => option_map S (first_true r)
  end.

(** [existing_row_idx]; [order_column] is [None] when the frame is
    empty, in which case the search is not made. *)
Definition existing_row_idx (order_column : option (list cell))
  (target : string) : option nat :=
  match order_column with
  | None => None
  | Some col => first_true (mask col target)
  end.

(** One turn of the loop over [order_tracking_pairs]. *)
Definition loop_body (order_column : option (list cell)) (today : string)
  (st : loop_state) (pair : string * string) : loop_state :=
  let '(order_number, tracking_number) := pair in
  if PyStr.is_empty order_number || PyStr.is_empty tracking_number then
    {| added_count := added_count st;
       updated_count := updated_count st;
       skipped_count := skipped_count st + 1;
       rows_to_add := rows_to_add st;
       rows_to_update := rows_to_update st |}
  else
    let clean := clean_order_number order_number in
    let link := _generate_tracking_link tracking_number in
    match existing_row_idx order_column clean with
    | Some idx =>
        {| added_count := added_count st;
           updated_count := updated_count st + 1;
           skipped_count := skipped_count st;
           rows_to_add := rows_to_add st;
           rows_to_update :=
             (rows_to_update st ++
              [{| u_row := idx + 2; u_order_number := clean;
                  u_tracking_number := tracking_number;
                  u_date := today; u_tracking_link := link |}])%list |}
    | None =>
        {| added_count := added_count st + 1;
           updated_count := updated_count st;
           skipped_count := skipped_count st;
           rows_to_add :=
             (rows_to_add st ++
              [{| order_number := clean; tracking_number := tracking_number;
                  date_added := today; tracking_link := link;
                  completed := false |}])%list;
           rows_to_update := rows_to_update st |}
    end.

Definition reconcile (order_column : option (list cell)) (today : string)
  (pairs : list (string * string)) : loop_state :=
  fold_left (loop_body order_column today) pairs initial_state.

(** The three entries appended to [update_requests] for one update. *)
Definition requests_of (u : update_row) : list ValueRange :=
  [ {| range_sheet := tracking_sheet_name; range_column := "B";
       range_row := u_row u; cell_value := u_tracking_number u |};
    {| range_sheet := tracking_sheet_name; range_column := "C";
       range_row := u_row u; cell_value := u_date u |};
    {| range_sheet := tracking_sheet_name; range_column := "D";
       range_row := u_row u; cell_value := u_tracking_link u |} ].

Definition update_requests (us : list update_row) : list ValueRange :=
  flat_map requests_of us.

(** [_setup_checkbox_validation(start_row, end_row)] with both bounds
    given: nothing is sent when the sheet id is not found. *)
Definition _setup_checkbox_validation (e : env) (start_row end_row : nat)
  : list api_call :=
  match sheet_id e with
  | None => []
  | Some sid => [setDataValidation sid (start_row - 1) end_row]
  end.

(** The column the search reads: none for an empty frame, else
    [existing_df['order_number']], which may raise. *)
Definition order_column_of (existing_df : DataFrame)
  : result (option (list cell)) :=
  if empty existing_df then Ok None
  else match getitem existing_df "order_number" with
       | Ok col => Ok (Some col)
       | Raise e => Raise e
       end.

(** The requests of the write phase when the store refuses none: the
    batch of updates, then the append and the checkbox rule on the
    appended range. *)
Definition commit (e : env) (existing_df : DataFrame) (st : loop_state)
  : list api_call :=
  ((match rows_to_update st with
    | [] => []
    | _ :: _ => [values_batchUpdate (update_requests (rows_to_update st))]
    end)
   ++
   (match rows_to_add st with
    | [] => []
    | _ :: _ =>
        let current_row_count := len existing_df + 1 in
        values_append (rows_to_add st)
        :: _setup_checkbox_validation e (current_row_count + 1)
             (current_row_count + length (rows_to_add st))
    end))%list.

Record outcome : Type := {
  calls : list api_call;
  returned : result (nat * nat * nat)
}.

Definition wrap (e : exn) : exn := Wrapped "Failed to bulk update orders: " e.

(** The write phase with the answers of the store: the requests sent,
    in order, and the error of the request the store refused, after which
    nothing more is sent. The errors of the checkbox rule are swallowed
    by [_setup_checkbox_validation] itself. When no request is refused the
    requests sent are those of [commit]. *)
Definition commit_outcome (e : env) (existing_df : DataFrame) (st : loop_state)
  : list api_call * option exn :=
  let batch := values_batchUpdate (update_requests (rows_to_update st)) in
  let current_row_count := len existing_df + 1 in
  match rows_to_update st, update_error e with
  | _ :: _, Some x => ([batch], Some x)
  | updates, _ =>
      let sent := match updates with
                  | [] => []
                  | _ :: _ => [batch]
                  end in
      match rows_to_add st, append_error e with
      | [], _ => (sent, None)
      | _ :: _, Some x =>
          ((sent ++ [values_append (rows_to_add st)])%list, Some x)
      | _ :: _, None =>
          ((sent ++ values_append (rows_to_add st)
                    :: _setup_checkbox_validation e (current_row_count + 1)
                         (current_row_count + length (rows_to_add st)))%list,
           None)
      end
  end.

(** [bulk_update_orders]: every exception raised inside its [try], that
    of a refused write included, is raised again wrapped. *)
Definition bulk_update_orders (e : env) (order_tracking_pairs : list (string * string))
  : outcome :=
  match _get_existing_data (read_response e) with
  | Raise x => {| calls := []; returned := Raise (wrap x) |}
  | Ok existing_df =>
      let today := strftime_dmy (now e) in
      match order_column_of existing_df with
      | Raise x => {| calls := []; returned := Raise (wrap x) |}
      | Ok col =>
          let st := reconcile col today order_tracking_pairs in
          {| calls := fst (commit_outcome e existing_df st);
             returned :=
               match snd (commit_outcome e existing_df st) with
               | Some x => Raise (wrap x)
               | None =>
                   Ok (added_count st, updated_count st, skipped_count st)
               end |}
      end
  end.

(** [_setup_checkbox_validation(start_row, end_row)] with optional
    bounds: when one of them is missing, both are replaced by the range of
    the data rows of the sheet, and nothing is sent for an empty frame. *)
Definition _setup_checkbox_validation_opt (e : env)
  (start_row end_row : option nat) : list api_call :=
  match sheet_id e with
  | None => []
  | Some sid =>
      match start_row, end_row with
      | Some s, Some n => [setDataValidation sid (s - 1) n]
      | _, _ =>
          match _get_existing_data (read_response e) with
          | Raise _ => []
          | Ok existing_df =>
              if empty existing_df then []
              else [setDataValidation sid (2 - 1) (len existing_df + 1)]
          end
      end
  end.

(** [order.get(key, '')] on an order of [order_data]. *)
Definition get_default (key : string) (order : PyDict.dict string) : string :=
  match PyDict.get key order with
  | Some v => v
  | None => ""
  end.

(** The row [append_order_data] makes of one order; none for an order
    without order number. *)
Definition new_row (today : string) (order : PyDict.dict string)
  : list LedgerRow :=
  let order_number := get_default "order_number" order in
  let tracking_number := get_default "tracking_number" order in
  if PyStr.is_empty order_number then []
  else [{| order_number := order_number;
           tracking_number := tracking_number;
           date_added := today;
           tracking_link := _generate_tracking_link tracking_number;
           completed := false |}].

(** [new_rows] after the loop over [order_data]. *)
Definition new_rows (today : string) (order_data : list (PyDict.dict string))
  : list LedgerRow :=
  flat_map (new_row today) order_data.

(** The values [isin] is given by [existing_df['order_number']]: the
    cells of the column; when several columns have the name the selection
    is a frame, whose iteration gives its column labels. *)
Definition isin_targets (existing_df : DataFrame) : result (list cell) :=
  match count_occ string_dec (columns existing_df) "order_number",
        index_of "order_number" (columns existing_df) with
  | 0, _ => Raise (KeyError "order_number")
  | 1, Some i => Ok (map (fun row => nth i row None) (rows existing_df))
  | n, _ => Ok (repeat (Some "order_number") n)
  end.

(** [series.isin(targets)] on one string. *)
Definition isin (targets : list cell) (s : string) : bool :=
  existsb (fun c => match c with
                    | Some v => String.eqb v s
                    | None => false
                    end) targets.

(** [new_df[~new_df['order_number'].isin(existing_df['order_number'])]],
    made only when the existing frame is not empty. *)
Definition remove_existing (existing_df : DataFrame) (rows : list LedgerRow)
  : result (list LedgerRow) :=
  if empty existing_df then Ok rows
  else match isin_targets existing_df with
       | Raise x => Raise x
       | Ok targets =>
           Ok (filter (fun r => negb (isin targets (order_number r))) rows)
       end.

Record append_outcome : Type := {
  append_calls : list api_call;
  append_returned : result bool
}.

Definition wrap_append (e : exn) : exn :=
  Wrapped "Failed to append data to Google Sheet: " e.

(** [append_order_data]: a refused append is raised again wrapped, and
    the checkbox rule is then not set. *)
Definition append_order_data (e : env) (order_data : list (PyDict.dict string))
  : append_outcome :=
  match order_data with
  | [] => {| append_calls := []; append_returned := Ok true |}
  | _ :: _ =>
      match _get_existing_data (read_response e) with
      | Raise x => {| append_calls := []; append_returned := Raise (wrap_append x) |}
      | Ok existing_df =>
          let today := strftime_dmy (now e) in
          match new_rows today order_data with
          | [] => {| append_calls := []; append_returned := Ok true |}
          | (_ :: _) as rows =>
              match remove_existing existing_df rows with
              | Raise x =>
                  {| append_calls := []; append_returned := Raise (wrap_append x) |}
              | Ok [] => {| append_calls := []; append_returned := Ok true |}
              | Ok ((_ :: _) as values) =>
                  let current_row_count := len existing_df + 1 in
                  match append_error e with
                  | Some x =>
                      {| append_calls := [values_append values];
                         append_returned := Raise (wrap_append x) |}
                  | None =>
                      {| append_calls :=
                           values_append values
                           :: _setup_checkbox_validation e (current_row_count + 1)
                                (current_row_count + length values);
                         append_returned := Ok true |}
                  end
              end
          end
      end
  end.

(** [check_for_duplicate_orders]; it has no handler of its own. *)
Definition check_for_duplicate_orders (e : env) (order_numbers : list string)
  : result (list string) :=
  match _get_existing_data (read_response e) with
  | Raise x => Raise x
  | Ok existing_df =>
      if empty existing_df then Ok []
      else match getitem existing_df "order_number" with
           | Raise x => Raise x
           | Ok col =>
               let existing_orders := map astype_str col in
               Ok (filter (fun order =>
                             existsb (String.eqb order) existing_orders)
                     order_numbers)
           end
  end.

End GoogleSheetsService.

(** ** services/excel_service.py *)

Module ExcelService.

(** [clean_value]: a cell of the uploaded file is [None] for NaN or
    None and [Some s] for a value whose [str()] is [s]. *)
Definition clean_value (value : option string) : string :=
  match value with
  | None => ""
  | Some s => PyStr.strip s
  end.

Record order_info : Type := {
  order_number : string;
  tracking_number : string
}.

(** The variables of the loop of [process_excel_file]. *)
Record loop_state : Type := {
  order_data_dict : PyDict.dict order_info;
  empty_tracking_count : nat;
  empty_order_count : nat;
  duplicate_count : nat
}.

Definition initial_state : loop_state :=
  {| order_data_dict := []; empty_tracking_count := 0;
     empty_order_count := 0; duplicate_count := 0 |}.

(** One turn of [for _, row in df.iterrows()]; [row] holds the cells of
    the order-number column and of the tracking column. *)
Definition loop_body (st : loop_state) (row : option string * option string)
  : loop_state :=
  let order_number := clean_value (fst row) in
  let tracking_number := clean_value (snd row) in
  if PyStr.is_empty order_number then
    {| order_data_dict := order_data_dict st;
       empty_tracking_count := empty_tracking_count st;
       empty_order_count := empty_order_count st + 1;
       duplicate_count := duplicate_count st |}
  else if PyStr.is_empty tracking_number then
    {| order_data_dict := order_data_dict st;
       empty_tracking_count := empty_tracking_count st + 1;
       empty_order_count := empty_order_count st;
       duplicate_count := duplicate_count st |}
  else
    let clean_order :=
      let c := PyStr.strip order_number in
      if PyStr.startswith "#" c then PyStr.tail c else c in
    {| order_data_dict :=
         PyDict.setitem clean_order
           {| order_number := clean_order; tracking_number := tracking_number |}
           (order_data_dict st);
       empty_tracking_count := empty_tracking_count st;
       empty_order_count := empty_order_count st;
       duplicate_count :=
         if PyDict.mem clean_order (order_data_dict st)
         then duplicate_count st + 1 else duplicate_count st |}.

Definition process_rows (rows : list (option string * option string))
  : loop_state :=
  fold_left loop_body rows initial_state.

(** [order_data] and [skipped_count] of [process_excel_file] for a file
    that passed validation. *)
Definition order_data (rows : list (option string * option string))
  : list order_info :=
  PyDict.values (order_data_dict (process_rows rows)).

Definition skipped_count (rows : list (option string * option string)) : nat :=
  empty_tracking_count (process_rows rows) + empty_order_count (process_rows rows).

Definition column_mappings : PyDict.dict (list string) :=
  [("order-number", ["order-number"; "order #"; "ORDER #"; "order_number"]);
   ("tracking", ["tracking"; "tracking number"; "TRACKING NUMBER"; "Tracking"])].

(** [columns[columns_lower.index(name)]] *)
Fixpoint column_with_lower (name : string) (columns : list string)
  : option string :=
  match columns with
  | [] => None
  | col :: rest =>
      if String.eqb (PyStr.lower col) name then Some col
      else column_with_lower name rest
  end.

(** First loop of [find_matching_column]: a column that is literally
    one of the names. *)
Fixpoint exact_match (columns possible_names : list string) : option string :=
  match columns with
  | [] => None
  | col :: rest =>
      if existsb (String.eqb col) possible_names then Some col
      else exact_match rest possible_names
  end.

(** Second loop: the names in turn, each against the lowered columns. *)
Fixpoint lower_match (possible_names columns : list string) : option string :=
  match possible_names with
  | [] => None
  | name :: rest =>
      match column_with_lower (PyStr.lower name) columns with
      | Some col => Some col
      | None => lower_match rest columns
      end
  end.

(** [find_matching_column]; the column labels are strings. *)
Definition find_matching_column (columns : list string) (target_type : string)
  : result (option string) :=
  match PyDict.get target_type column_mappings with
  | None => Raise (KeyError target_type)
  | Some possible_names =>
      match exact_match columns possible_names with
      | Some col => Ok (Some col)
      | None => Ok (lower_match possible_names columns)
      end
  end.

(** An uploaded workbook as [pd.read_excel] hands it over: the column
    labels and the rows, each row with one cell per column. *)
Record workbook : Type := {
  wb_columns : list string;
  wb_rows : list (list (option string))
}.

(** The second component of the results of [validate_excel_file] and
    [process_excel_file]. *)
Inductive message : Type :=
| Text (s : string)
| ErrorReading (e : exn)      (* "Error reading Excel file: " + str(e) *)
| ErrorProcessing (e : exn).  (* "Error processing Excel file: " + str(e) *)

(** [not message] *)
Definition message_empty (m : message) : bool :=
  match m with
  | Text s => PyStr.is_empty s
  | _ => false
  end.

Definition tried (target_type : string) : string :=
  match PyDict.get target_type column_mappings with
  | Some names => PyStr.join ", " names
  | None => ""
  end.

(** [validate_excel_file], from the outcome of [pd.read_excel]. *)
Definition validate_excel_file (file : result workbook)
  : bool * message * PyDict.dict string :=
  match file with
  | Raise x => (false, ErrorReading x, [])
  | Ok df =>
      match find_matching_column (wb_columns df) "order-number",
            find_matching_column (wb_columns df) "tracking" with
      | Ok order_column, Ok tracking_column =>
          let missing1 :=
            match order_column with
            | None | Some "" =>
                ["Order Number (tried: " ++ tried "order-number" ++ ")"]
            | Some _ => []
            end in
          let mapping1 : PyDict.dict string :=
            match order_column with
            | None | Some "" => []
            | Some c => PyDict.setitem "order-number" c []
            end in
          let missing2 :=
            match tracking_column with
            | None | Some "" =>
                ["Tracking Number (tried: " ++ tried "tracking" ++ ")"]
            | Some _ => []
            end in
          let mapping2 : PyDict.dict string :=
            match tracking_column with
            | None | Some "" => mapping1
            | Some c => PyDict.setitem "tracking" c mapping1
            end in
          match (missing1 ++ missing2)%list with
          | [] => (true, Text "", mapping2)
          | missing_columns =>
              (false,
               Text ("Missing required columns: " ++ PyStr.join ", " missing_columns),
               [])
          end
      | Raise x, _ => (false, ErrorReading x, [])
      | _, Raise x => (false, ErrorReading x, [])
      end
  end.

(** [row[label]] for a row of the workbook. *)
Definition row_cell (columns : list string) (label : string)
  (row : list (option string)) : option string :=
  match Pandas.index_of label columns with
  | Some i => nth i row None
  | None => None
  end.

(** The text of the second component of [process_excel_file] after the
    loop. *)
Definition summary (st : loop_state) : string :=
  let skipped := empty_tracking_count st + empty_order_count st in
  let blank_orders :=
    if (0 <? empty_order_count st)%nat
    then [PyStr.str_of_nat (empty_order_count st)
          ++ " row(s) with blank order numbers"]
    else [] in
  let blank_trackings :=
    if (0 <? empty_tracking_count st)%nat
    then [PyStr.str_of_nat (empty_tracking_count st)
          ++ " row(s) with blank tracking numbers"]
    else [] in
  let duplicates :=
    if (0 <? duplicate_count st)%nat
    then [PyStr.str_of_nat (duplicate_count st)
          ++ " duplicate order number(s) within file (kept latest)"]
    else [] in
  let messages := (blank_orders ++ blank_trackings ++ duplicates)%list in
  let message :=
    "Skipped " ++ PyStr.str_of_nat skipped ++ " row(s)"
    ++ (if (0 <? duplicate_count st)%nat
        then ", handled " ++ PyStr.str_of_nat (duplicate_count st) ++ " duplicate(s)"
        else "") in
  match messages with
  | [] => message
  | _ :: _ => message ++ ": " ++ PyStr.join ", " messages
  end.

(** [process_excel_file], from the outcome of [pd.read_excel] (the file
    is read once for the validation and once for the loop). *)
Definition process_excel_file (file : result workbook)
  : list order_info * message :=
  match validate_excel_file file with
  | (false, error_message, _) => ([], error_message)
  | (true, _, column_mapping) =>
      match file with
      | Raise x => ([], ErrorProcessing x)
      | Ok df =>
          match PyDict.get "order-number" column_mapping,
                PyDict.get "tracking" column_mapping with
          | Some oc, Some tc =>
              let st :=
                process_rows
                  (map (fun row => (row_cell (wb_columns df) oc row,
                                    row_cell (wb_columns df) tc row))
                     (wb_rows df)) in
              (PyDict.values (order_data_dict st), Text (summary st))
          | None, _ => ([], ErrorProcessing (KeyError "order-number"))
          | _, None => ([], ErrorProcessing (KeyError "tracking"))
          end
      end
  end.

End ExcelService.

(** ** app.py: the [/bulk_update] handler *)

Module App.

Import GoogleSheetsService.

Inductive parse_error : Type :=
| InvalidFormat (line_num : nat) (line : string)
    (* "Line n: 'line' - Invalid format (should be: order_number tracking_number)" *)
| EmptyField (line_num : nat).
    (* "Line n: Empty order number or tracking number" *)

Inductive parsed : Type :=
| Blank
| Bad (e : parse_error)
| Good (order_number tracking_number : string).

(** The body of [for line_num, line in enumerate(lines, 1)]. *)
Definition parse_line (line_num : nat) (raw : string) : parsed :=
  let line := PyStr.strip raw in
  if PyStr.is_empty line then Blank
  else
    match PyStr.split1 " " line with
    | [p0; p1] =>
        let order_number := PyStr.strip p0 in
        let tracking_number := PyStr.strip p1 in
        let order_number :=
          if PyStr.startswith "#" order_number
          then PyStr.tail order_number else order_number in
        if PyStr.is_empty order_number || PyStr.is_empty tracking_number
        then Bad (EmptyField line_num)
        else Good order_number tracking_number
    | _ => Bad (InvalidFormat line_num line)
    end.

Fixpoint parse_loop (line_num : nat) (lines : list string)
  (order_tracking_pairs : list (string * string))
  (parse_errors : list parse_error)
  : list (string * string) * list parse_error :=
  match lines with
  | [] => (order_tracking_pairs, parse_errors)
  | raw :: rest =>
      match parse_line line_num raw with
      | Blank => parse_loop (S line_num) rest order_tracking_pairs parse_errors
      | Bad e =>
          parse_loop (S line_num) rest order_tracking_pairs
            (parse_errors ++ [e])%list
      | Good o t =>
          parse_loop (S line_num) rest
            (order_tracking_pairs ++ [(o, t)])%list parse_errors
      end
  end.

Definition parse (lines : list string)
  : list (string * string) * list parse_error :=
  parse_loop 1 lines [] [].

(** [unique_pairs], filled by [unique_pairs[order_number] = tracking_number]. *)
Definition unique_pairs (order_tracking_pairs : list (string * string))
  : PyDict.dict string :=
  fold_left (fun d p => PyDict.setitem (fst p) (snd p) d)
    order_tracking_pairs [].

Definition final_pairs (order_tracking_pairs : list (string * string))
  : list (string * string) :=
  PyDict.items (unique_pairs order_tracking_pairs).

(** What the handler ends with; each case is one of its flashes. *)
Inductive bulk_result : Type :=
| NoOrderData                       (* 'No order data provided' *)
| NoValidPairs (parse_errors : list parse_error)
| Completed (parse_errors : list parse_error) (duplicates_removed : nat)
    (calls : list api_call) (added updated skipped : nat)
| Failed (parse_errors : list parse_error) (duplicates_removed : nat)
    (e : exn).

(** [lines], after the strip of the whole field. *)
Definition lines_of (bulk_orders : string) : list string :=
  PyStr.split "010" (PyStr.strip bulk_orders).

Definition bulk_update (e : env) (bulk_orders : string) : bulk_result :=
  let bulk_orders_text := PyStr.strip bulk_orders in
  if PyStr.is_empty bulk_orders_text then NoOrderData
  else
    let lines := PyStr.split "010" bulk_orders_text in
    let '(order_tracking_pairs, parse_errors) := parse lines in
    match order_tracking_pairs with
    | [] => NoValidPairs parse_errors
    | _ :: _ =>
        let final := final_pairs order_tracking_pairs in
        let duplicates_removed := length order_tracking_pairs - length final in
        let out := bulk_update_orders e final in
        match returned out with
        | Ok (added, updated, skipped) =>
            Completed parse_errors duplicates_removed (calls out)
              added updated skipped
        | Raise x => Failed parse_errors duplicates_removed x
        end
    end.

(** The text of a parse error. *)
Definition message_of (e : parse_error) : string :=
  match e with
  | InvalidFormat line_num line =>
      "Line " ++ PyStr.str_of_nat line_num ++ ": '" ++ line
      ++ "' - Invalid format (should be: order_number tracking_number)"
  | EmptyField line_num =>
      "Line " ++ PyStr.str_of_nat line_num
      ++ ": Empty order number or tracking number"
  end.

(** The warnings flashed for [parse_errors]: message and category. *)
Definition parse_error_flashes (parse_errors : list parse_error)
  : list (string * string) :=
  match parse_errors with
  | [] => []
  | _ :: _ =>
      if (length parse_errors <=? 3)%nat
      then map (fun e => ("Skipped - " ++ message_of e, "warning")) parse_errors
      else [("Skipped " ++ PyStr.str_of_nat (length parse_errors)
             ++ " lines with formatting errors", "warning")]
  end.

(** [message_parts] of the final flash of [bulk_update]. *)
Definition message_parts (added_count updated_count skipped_count : nat)
  : list string :=
  let added :=
    if (0 <? added_count)%nat
    then [PyStr.str_of_nat added_count ++ " new orders added"] else [] in
  let updated :=
    if (0 <? updated_count)%nat
    then [PyStr.str_of_nat updated_count ++ " existing orders updated"]
    else [] in
  let skipped :=
    if (0 <? skipped_count)%nat
    then [PyStr.str_of_nat skipped_count ++ " orders skipped (missing data)"]
    else [] in
  (added ++ updated ++ skipped)%list.

(** ** app.py: the [/upload_excel] handler *)

(** The upload of the request: absent, or a file name with what
    [pd.read_excel] makes of the saved file. *)
Record upload : Type := {
  filename : string;
  content : result ExcelService.workbook
}.

Inductive upload_result : Type :=
| NoFileSelected                       (* 'No file selected' *)
| NotExcel                             (* 'Please upload an Excel file' *)
| ExcelError (m : ExcelService.message) (* "Error processing Excel file ..." *)
| NoValidData                          (* "No valid data found in the Excel file" *)
| SheetError (e : exn)                 (* "Error appending data to Google Sheet" *)
| Uploaded (initial_count : nat) (m : ExcelService.message)
    (calls : list api_call).

(** The dictionary [process_excel_file] builds for one entry. *)
Definition order_dict (o : ExcelService.order_info) : PyDict.dict string :=
  [("order_number", ExcelService.order_number o);
   ("tracking_number", ExcelService.tracking_number o)].

Definition upload_excel (e : env) (file : option upload) : upload_result :=
  match file with
  | None => NoFileSelected
  | Some f =>
      if String.eqb (filename f) "" then NoFileSelected
      else if negb (PyStr.endswith ".xlsx" (filename f)
                    || PyStr.endswith ".xls" (filename f))
      then NotExcel
      else
        let '(order_data, m) := ExcelService.process_excel_file (content f) in
        match order_data with
        | [] =>
            if negb (ExcelService.message_empty m) then ExcelError m
            else NoValidData
        | _ :: _ =>
            let out := append_order_data e (map order_dict order_data) in
            match append_returned out with
            | Raise x => SheetError x
            | Ok _ => Uploaded (length order_data) m (append_calls out)
            end
        end
  end.

End App.

(** ** A sheet, for reading the effect of the batch of updates

    Cells are addressed by row number and column letter; a
    [values_batchUpdate] entry overwrites the one cell of its range. *)

Module Sheet.

Import GoogleSheetsService.

Inductive value : Type :=
| Blank
| Text (s : string)
| Boolean (b : bool).

Definition sheet : Type := nat -> string -> value.

Definition write (r : ValueRange) (g : sheet) : sheet :=
  fun row col =>
    if ((row =? range_row r)%nat && String.eqb col (range_column r))%bool
    then Text (cell_value r) else g row col.

Definition batchUpdate (data : list ValueRange) (g : sheet) : sheet :=
  fold_left (fun g r => write r g) data g.

End Sheet.

(** ** Vocabulary of the statements *)

Module Spec.

(** Every character of the text is white space. *)
Fixpoint all_space (s : string) : bool :=
  match s with
  | EmptyString => true
  | String c r => PyStr.isspace c && all_space r
  end.

(** Number of lines left blank by the strip. *)
Definition blank_lines (lines : list string) : nat :=
  length (filter (fun l => PyStr.is_empty (PyStr.strip l)) lines).

(** The tracking number of the last pair of the batch with this order
    number. *)
Fixpoint last_tracking (k : string) (pairs : list (string * string))
  : option string :=
  match pairs with
  | [] => None
  | (o, t) :: rest =>
      match last_tracking k rest with
      | Some v => Some v
      | None => if String.eqb o k then Some t else None
      end
  end.


(** The cells searched for a match: none when the frame is empty. *)
Definition cells_of (order_column : option (list Pandas.cell)) : list Pandas.cell :=
  match order_column with
  | None => []
  | Some col => col
  end.

(** The canonical order number of an existing cell under the rule of
    the input side (trim, one leading [#] removed). *)
Definition canonical (c : Pandas.cell) : string :=
  GoogleSheetsService.clean_order_number (Pandas.astype_str c).

(** What one line contributes to the loop of [bulk_update], and the two
    lists built from the lines numbered from [n]. *)
Definition pairs_of_line (n : nat) (raw : string) : list (string * string) :=
  match App.parse_line n raw with
  | App.Good o t => [(o, t)]
  | _ => []
  end.

Definition errors_of_line (n : nat) (raw : string) : list App.parse_error :=
  match App.parse_line n raw with
  | App.Bad e => [e]
  | _ => []
  end.

Fixpoint pairs_from (n : nat) (lines : list string) : list (string * string) :=
  match lines with
  | [] => []
  | raw :: rest => (pairs_of_line n raw ++ pairs_from (S n) rest)%list
  end.

Fixpoint errors_from (n : nat) (lines : list string) : list App.parse_error :=
  match lines with
  | [] => []
  | raw :: rest => (errors_of_line n raw ++ errors_from (S n) rest)%list
  end.

(** What one pair contributes to the loop of [bulk_update_orders]. *)
Section Contribution.
Import GoogleSheetsService.
Variable order_column : option (list Pandas.cell).
Variable today : string.

Definition skipped_pair (p : string * string) : bool :=
  PyStr.is_empty (fst p) || PyStr.is_empty (snd p).

Definition inserted_row (p : string * string) : LedgerRow :=
  {| order_number := clean_order_number (fst p);
     tracking_number := snd p;
     date_added := today;
     tracking_link := _generate_tracking_link (snd p);
     completed := false |}.

Definition update_entry (idx : nat) (p : string * string) : update_row :=
  {| u_row := idx + 2;
     u_order_number := clean_order_number (fst p);
     u_tracking_number := snd p;
     u_date := today;
     u_tracking_link := _generate_tracking_link (snd p) |}.

Definition inserts_of (p : string * string) : list LedgerRow :=
  if skipped_pair p then []
  else match existing_row_idx order_column (clean_order_number (fst p)) with
       | None => [inserted_row p]
       | Some _ => []
       end.

Definition updates_of (p : string * string) : list update_row :=
  if skipped_pair p then []
  else match existing_row_idx order_column (clean_order_number (fst p)) with
       | None => []
       | Some idx => [update_entry idx p]
       end.
End Contribution.

(** The cleaned pair a row of the workbook gives to the loop of
    [process_excel_file]; none for a row with a blank cell. *)
Definition excel_pair (row : option string * option string)
  : list (string * string) :=
  let o := ExcelService.clean_value (fst row) in
  let t := ExcelService.clean_value (snd row) in
  if PyStr.is_empty o || PyStr.is_empty t then []
  else [(GoogleSheetsService.clean_order_number o, t)].

Definition excel_pairs (rows : list (option string * option string))
  : list (string * string) :=
  flat_map excel_pair rows.

Definition info_of (p : string * string) : ExcelService.order_info :=
  {| ExcelService.order_number := fst p; ExcelService.tracking_number := snd p |}.

(** The line number a parse error carries. *)
Definition error_line (e : App.parse_error) : nat :=
  match e with
  | App.InvalidFormat n _ => n
  | App.EmptyField n => n
  end.

(** A pair written as a line of the bulk form. *)
Definition line_of (p : string * string) : string :=
  fst p ++ String " " (snd p).

(** The header row [_ensure_tracking_sheet_exists] writes. *)
Definition sheet_header : list string :=
  ["Order Number"; "Tracking Number"; "Date Added"; "Tracking Link"; "Completed"].

(** The last entry of a batch of updates that targets a row. *)
Fixpoint last_entry (row : nat) (us : list GoogleSheetsService.update_row)
  : option GoogleSheetsService.update_row :=
  match us with
  | [] => None
  | u :: rest =>
      match last_entry row rest with
      | Some v => Some v
      | None => if (GoogleSheetsService.u_row u =? row)%nat then Some u else None
      end
  end.

(** The order numbers appended by a list of calls. *)
Definition appended_orders (calls : list GoogleSheetsService.api_call)
  : list string :=
  flat_map (fun c => match c with
                     | GoogleSheetsService.values_append rows =>
                         map GoogleSheetsService.order_number rows
                     | _ => []
                     end) calls.

End Spec.

(** * Properties *)

(** ** Strings *)

Section StringFacts.

Import PyStr Spec.

Lemma is_empty_true (s : string) : is_empty s = true <-> s = "".
Proof. destruct s; simpl; split; congruence. Qed.

Lemma is_empty_false (s : string) : is_empty s = false <-> s <> "".
Proof. destruct s; simpl; split; congruence. Qed.

Lemma length_append (a b : string) :
  String.length (a ++ b) = String.length a + String.length b.
Proof. induction a as [|c a IH]; simpl; [reflexivity | now rewrite IH]. Qed.

Lemma lstrip_length (s : string) : String.length (lstrip s) <= String.length s.
Proof.
  induction s as [|c r IH]; simpl; [lia|].
  destruct (isspace c); simpl; lia.
Qed.

Lemma rstrip_length (s : string) : String.length (rstrip s) <= String.length s.
Proof.
  induction s as [|c r IH]; simpl; [lia|].
  destruct (isspace c && is_empty (rstrip r)); simpl; lia.
Qed.

Lemma lstrip_same_length (s : string) :
  String.length (lstrip s) = String.length s -> lstrip s = s.
Proof.
  destruct s as [|c r]; simpl; [reflexivity|].
  destruct (isspace c); [|reflexivity].
  intros H. pose proof (lstrip_length r). lia.
Qed.

Lemma strip_fixed (s : string) : strip s = s -> lstrip s = s /\ rstrip s = s.
Proof.
  unfold strip. intros H.
  assert (L : lstrip s = s).
  { apply lstrip_same_length.
    pose proof (rstrip_length (lstrip s)) as H1.
    pose proof (lstrip_length s) as H2.
    rewrite H in H1. lia. }
  split; [exact L | now rewrite L in H].
Qed.

Lemma rstrip_empty (s : string) : rstrip s = "" <-> all_space s = true.
Proof.
  induction s as [|c r IH]; simpl; [tauto|].
  destruct (isspace c); simpl.
  - destruct (rstrip r) eqn:E; simpl.
    + split; intros _; [now apply IH | reflexivity].
    + split; [discriminate|]. intros H. apply IH in H. discriminate.
  - split; discriminate.
Qed.

Lemma all_space_lstrip (s : string) : all_space (lstrip s) = all_space s.
Proof.
  induction s as [|c r IH]; simpl; [reflexivity|].
  destruct (isspace c) eqn:E; simpl; [exact IH | now rewrite E].
Qed.

Lemma strip_empty (s : string) : strip s = "" <-> all_space s = true.
Proof. unfold strip. rewrite rstrip_empty, all_space_lstrip. tauto. Qed.

Lemma rstrip_idem (s : string) : rstrip (rstrip s) = rstrip s.
Proof.
  induction s as [|c r IH]; simpl; [reflexivity|].
  destruct (isspace c && is_empty (rstrip r)) eqn:E; simpl; [reflexivity|].
  now rewrite IH, E.
Qed.

Lemma rstrip_app_space (a w : string) :
  all_space w = true -> rstrip (a ++ w) = rstrip a.
Proof.
  intros H. induction a as [|c a IH]; simpl.
  - now apply rstrip_empty.
  - now rewrite IH.
Qed.

Lemma lstrip_head (s : string) (c : ascii) (r : string) :
  lstrip s = String c r -> isspace c = false.
Proof.
  induction s as [|d s IH]; simpl; [discriminate|].
  destruct (isspace d) eqn:E; [exact IH|].
  intros H. injection H as -> _. exact E.
Qed.

Lemma rstrip_head (s : string) (c : ascii) (r : string) :
  rstrip s = String c r -> exists r', s = String c r'.
Proof.
  destruct s as [|d s]; simpl; [discriminate|].
  destruct (isspace d && is_empty (rstrip s)); [discriminate|].
  intros H. injection H as -> _. now exists s.
Qed.

(** A stripped text starts with a character that is not white space. *)
Lemma strip_head (s : string) (c : ascii) (r : string) :
  strip s = String c r -> isspace c = false.
Proof.
  unfold strip. intros H.
  destruct (rstrip_head _ _ _ H) as [r' E].
  exact (lstrip_head _ _ _ E).
Qed.

Lemma strip_idem_r (s : string) : rstrip (strip s) = strip s.
Proof. unfold strip. apply rstrip_idem. Qed.

Lemma split1_none (c : ascii) (s : string) :
  contains c s = false -> split1 c s = [s].
Proof.
  induction s as [|d s IH]; simpl; [reflexivity|].
  destruct (Ascii.eqb d c); simpl; [discriminate|].
  intros H. now rewrite (IH H).
Qed.

Lemma split1_first (c : ascii) (a b : string) :
  contains c a = false -> split1 c (a ++ String c b) = [a; b].
Proof.
  induction a as [|d a IH]; simpl.
  - intros _. now rewrite Ascii.eqb_refl.
  - destruct (Ascii.eqb d c); simpl; [discriminate|].
    intros H. now rewrite (IH H).
Qed.

Lemma contains_cut (c : ascii) (s : string) :
  contains c s = true ->
  exists a b, s = a ++ String c b /\ contains c a = false.
Proof.
  induction s as [|d s IH]; simpl; [discriminate|].
  destruct (Ascii.eqb d c) eqn:E; simpl.
  - intros _. apply Ascii.eqb_eq in E. subst d. now exists "", s.
  - intros H. destruct (IH H) as (a & b & -> & Ha).
    exists (String d a), b. simpl. now rewrite E.
Qed.

Lemma remove_char_absent (c : ascii) (s : string) :
  contains c s = false -> remove_char c s = s.
Proof.
  induction s as [|d s IH]; simpl; [reflexivity|].
  destruct (Ascii.eqb d c); simpl; [discriminate|].
  intros H. now rewrite (IH H).
Qed.

End StringFacts.

(** ** The reconciliation loop *)

Section Reconcile.

Import Pandas GoogleSheetsService Spec.

Variable order_column : option (list cell).
Variable today : string.

Lemma loop_body_contribution (st : loop_state) (p : string * string) :
  loop_body order_column today st p =
  {| added_count := added_count st + length (inserts_of order_column today p);
     updated_count := updated_count st + length (updates_of order_column today p);
     skipped_count := skipped_count st + (if skipped_pair p then 1 else 0);
     rows_to_add := (rows_to_add st ++ inserts_of order_column today p)%list;
     rows_to_update := (rows_to_update st ++ updates_of order_column today p)%list |}.
Proof.
  destruct p as [o t]. unfold loop_body, inserts_of, updates_of, skipped_pair.
  simpl fst; simpl snd.
  destruct (PyStr.is_empty o || PyStr.is_empty t); simpl.
  - destruct st; simpl. now rewrite !Nat.add_0_r, !app_nil_r.
  - destruct (existing_row_idx order_column (clean_order_number o)); simpl;
      destruct st; simpl; now rewrite !Nat.add_0_r, !app_nil_r.
Qed.

Lemma reconcile_snoc (pairs : list (string * string)) (p : string * string) :
  reconcile order_column today (pairs ++ [p])%list
  = loop_body order_column today (reconcile order_column today pairs) p.
Proof. unfold reconcile. now rewrite fold_left_app. Qed.

(** Closed form of the five loop variables. *)
Lemma reconcile_closed_form (pairs : list (string * string)) :
  let st := reconcile order_column today pairs in
  rows_to_add st = flat_map (inserts_of order_column today) pairs
  /\ rows_to_update st = flat_map (updates_of order_column today) pairs
  /\ added_count st = length (rows_to_add st)
  /\ updated_count st = length (rows_to_update st)
  /\ skipped_count st = length (filter skipped_pair pairs).
Proof.
  induction pairs as [|p pairs IH] using rev_ind.
  - cbn. repeat split.
  - cbv zeta in *. destruct IH as (Ha & Hu & Hna & Hnu & Hs).
    rewrite reconcile_snoc, loop_body_contribution. cbn [added_count
      updated_count skipped_count rows_to_add rows_to_update].
    rewrite !flat_map_app, filter_app, !length_app, Ha, Hu. cbn [flat_map filter].
    rewrite !app_nil_r. repeat split.
    + rewrite Hna, Ha. reflexivity.
    + rewrite Hnu, Hu. reflexivity.
    + rewrite Hs. destruct (skipped_pair p); simpl; lia.
Qed.

Lemma contribution_length (p : string * string) :
  length (inserts_of order_column today p)
  + length (updates_of order_column today p)
  + (if skipped_pair p then 1 else 0) = 1.
Proof.
  unfold inserts_of, updates_of.
  destruct (skipped_pair p); [reflexivity|].
  destruct (existing_row_idx order_column _); reflexivity.
Qed.

(** Every pair handed to the loop is counted exactly once. *)
Lemma reconcile_counts (pairs : list (string * string)) :
  let st := reconcile order_column today pairs in
  added_count st + updated_count st + skipped_count st = length pairs.
Proof.
  induction pairs as [|p pairs IH] using rev_ind; [reflexivity|].
  cbv zeta in *. rewrite reconcile_snoc, loop_body_contribution.
  cbn [added_count updated_count skipped_count].
  pose proof (contribution_length p). rewrite length_app. simpl. lia.
Qed.

End Reconcile.

Lemma first_true_spec (m : list bool) (i : nat) :
  GoogleSheetsService.first_true m = Some i <->
  nth_error m i = Some true /\ (forall j, j < i -> nth_error m j = Some false).
Proof.
  revert i. induction m as [|b m IH]; intros i; simpl.
  - split; [discriminate|]. intros [H _]. destruct i; discriminate.
  - destruct b.
    + split.
      * intros H. injection H as <-. split; [reflexivity|]. intros j Hj. lia.
      * intros [H1 H2]. destruct i as [|i]; [reflexivity|].
        specialize (H2 0 (Nat.lt_0_succ _)). discriminate.
    + destruct i as [|i].
      * split.
        -- destruct (GoogleSheetsService.first_true m); discriminate.
        -- intros [H _]. discriminate.
      * split.
        -- intros H. destruct (GoogleSheetsService.first_true m) as [k|] eqn:E;
             [|discriminate].
           injection H as <-. destruct (proj1 (IH k) eq_refl) as [H1 H2].
           split; [exact H1|]. intros [|j] Hj; [reflexivity|].
           apply H2. lia.
        -- intros [H1 H2].
           assert (E : GoogleSheetsService.first_true m = Some i).
           { apply IH. split; [exact H1|]. intros j Hj.
             apply (H2 (S j)). lia. }
           now rewrite E.
Qed.

Lemma first_true_none (m : list bool) :
  GoogleSheetsService.first_true m = None <-> Forall (fun b => b = false) m.
Proof.
  induction m as [|b m IH]; simpl.
  - split; [constructor | reflexivity].
  - destruct b.
    + split; [discriminate|]. intros H. inversion H. discriminate.
    + destruct (GoogleSheetsService.first_true m).
      * split; [discriminate|]. intros H. inversion H as [|? ? _ H']; subst.
        apply IH in H'. discriminate.
      * split; [|reflexivity]. intros _. constructor; [reflexivity|].
        now apply IH.
Qed.

Lemma mask_map (cells : list Pandas.cell) (target : string) :
  GoogleSheetsService.mask cells target
  = map (fun c => String.eqb (GoogleSheetsService.clean_existing c) target) cells.
Proof.
  unfold GoogleSheetsService.mask, GoogleSheetsService.clean_order.
  now rewrite map_map.
Qed.

(** The search returns the least position whose cleaned cell equals the
    target. *)
Lemma existing_row_idx_first (cells : list Pandas.cell) (target : string) (i : nat) :
  GoogleSheetsService.existing_row_idx (Some cells) target = Some i <->
  (exists c, nth_error cells i = Some c
             /\ GoogleSheetsService.clean_existing c = target)
  /\ (forall j c, j < i -> nth_error cells j = Some c ->
                  GoogleSheetsService.clean_existing c <> target).
Proof.
  unfold GoogleSheetsService.existing_row_idx.
  rewrite first_true_spec, mask_map. split.
  - intros [H1 H2]. split.
    + rewrite nth_error_map in H1.
      destruct (nth_error cells i) as [c|]; [|discriminate].
      exists c. split; [reflexivity|]. simpl in H1.
      injection H1 as H1. now apply String.eqb_eq.
    + intros j c Hj Hc E. specialize (H2 j Hj).
      rewrite nth_error_map, Hc in H2. simpl in H2. injection H2 as H2.
      apply String.eqb_neq in H2. contradiction.
  - intros [(c & Hc & E) H2]. split.
    + rewrite nth_error_map, Hc. simpl. f_equal. now apply String.eqb_eq.
    + intros j Hj. rewrite nth_error_map.
      destruct (nth_error cells j) as [c'|] eqn:E'.
      * simpl. f_equal. apply String.eqb_neq. now apply (H2 j).
      * apply nth_error_None in E'.
        assert (i < length cells) by (apply nth_error_Some; congruence). lia.
Qed.

(** The search finds nothing exactly when no cleaned cell equals the
    target. *)
Lemma existing_row_idx_none (col : option (list Pandas.cell)) (target : string) :
  GoogleSheetsService.existing_row_idx col target = None <->
  Forall (fun c => GoogleSheetsService.clean_existing c <> target)
    (Spec.cells_of col).
Proof.
  destruct col as [cells|]; simpl; [|split; [constructor | reflexivity]].
  rewrite first_true_none, mask_map, Forall_map.
  split; intros H; eapply Forall_impl; try exact H; cbv beta; intros c Hc;
    now apply String.eqb_neq.
Qed.

Lemma not_skipped (o t : string) :
  o <> "" -> t <> "" -> Spec.skipped_pair (o, t) = false.
Proof.
  intros Ho Ht. unfold Spec.skipped_pair. simpl.
  apply is_empty_false in Ho, Ht. now rewrite Ho, Ht.
Qed.

(** ** The sheet under a batch of updates *)


Lemma batchUpdate_other_row (data : list GoogleSheetsService.ValueRange)
  (g : Sheet.sheet) (row : nat) (col : string) :
  Forall (fun r => GoogleSheetsService.range_row r <> row) data ->
  Sheet.batchUpdate data g row col = g row col.
Proof.
  unfold Sheet.batchUpdate. revert g.
  induction data as [|r data IH]; intros g H; simpl; [reflexivity|].
  inversion H as [|? ? Hr Hd]; subst. rewrite (IH _ Hd).
  unfold Sheet.write.
  destruct (Nat.eqb_spec row (GoogleSheetsService.range_row r)); [congruence|].
  reflexivity.
Qed.


(** ** The ledger accessor *)

Section Accessor.

Import Pandas GoogleSheetsService Spec.

Lemma reconcile_empty_ledger (today : string) (pairs : list (string * string)) :
  let st := reconcile None today pairs in
  rows_to_update st = []
  /\ updated_count st = 0
  /\ added_count st = length (filter (fun p => negb (skipped_pair p)) pairs)
  /\ skipped_count st = length (filter skipped_pair pairs).
Proof.
  cbv zeta.
  destruct (reconcile_closed_form None today pairs) as (Ha & Hu & Hna & Hnu & Hs).
  assert (U : flat_map (updates_of None today) pairs = []).
  { clear. induction pairs as [|p pairs IH]; simpl; [reflexivity|].
    rewrite IH. unfold updates_of. simpl. now destruct (skipped_pair p). }
  rewrite Hnu, Hu, U, Hna, Ha, Hs. repeat split.
  clear. induction pairs as [|p pairs IH]; simpl; [reflexivity|].
  rewrite length_app, IH. unfold inserts_of. simpl.
  now destruct (skipped_pair p).
Qed.

(** C1 (as the code has it). When the read of the ledger fails,
    [_get_existing_data] does not raise: its handler returns the empty
    frame, the same result as for a blank sheet. The reconciliation
    call therefore does not abort at the read; it runs as against an
    empty ledger: no pair is classified as an update, every pair with two
    non-empty fields is counted as added and the others as skipped, and
    the append of the rows to add is sent. The call returns the counts if
    the store accepts the append (or nothing is to append) and raises the
    error of the append, wrapped, if the store refuses it. *)
Theorem read_failure_is_read_as_empty_ledger :
  forall (x : exn) (sid : option nat) (d : datetime) (ue ae : option exn)
         (pairs : list (string * string)),
    let failing := {| read_response := ApiError x; sheet_id := sid; now := d;
                      update_error := ue; append_error := ae |} in
    let blank := {| read_response := ApiOk []; sheet_id := sid; now := d;
                    update_error := ue; append_error := ae |} in
    let st := reconcile None (strftime_dmy d) pairs in
    _get_existing_data (ApiError x) = Ok empty_frame
    /\ _get_existing_data (ApiError x) = _get_existing_data (ApiOk [])
    /\ bulk_update_orders failing pairs = bulk_update_orders blank pairs
    /\ rows_to_update st = []
    /\ updated_count st = 0
    /\ added_count st = length (filter (fun p => negb (skipped_pair p)) pairs)
    /\ skipped_count st = length (filter skipped_pair pairs)
    /\ calls (bulk_update_orders failing pairs)
       = match rows_to_add st with
         | [] => []
         | rows =>
             values_append rows
             :: match ae with
                | Some _ => []
                | None => _setup_checkbox_validation failing 2 (1 + length rows)
                end
         end
    /\ returned (bulk_update_orders failing pairs)
       = match rows_to_add st, ae with
         | _ :: _, Some y => Raise (Wrapped "Failed to bulk update orders: " y)
         | _, _ => Ok (added_count st, 0, skipped_count st)
         end.
Proof.
  intros x sid d ue ae pairs. cbv zeta.
  destruct (reconcile_empty_ledger (strftime_dmy d) pairs) as (Ru & Hu & Ha & Hs).
  do 7 (split; [first [reflexivity | assumption]|]).
  unfold bulk_update_orders, commit_outcome.
  cbn [read_response _get_existing_data now order_column_of empty empty_frame
       rows columns length Nat.eqb orb update_error append_error fst snd].
  rewrite Ru, Hu.
  destruct (rows_to_add (reconcile None (strftime_dmy d) pairs)) as [|r rs];
    [split; reflexivity|].
  destruct ae; split; reflexivity.
Qed.

(** C1, refuted as stated: a read that fails with an HTTP error yields
    the empty frame and no error; the call goes on as against an empty
    ledger and sends the append of the order as a new row. If the store
    accepts the append the call returns counts; if the store still fails,
    the error that reaches the caller is that of the append. *)
Lemma read_failure_counterexample :
  let down := HttpError "503 Service Unavailable" in
  let e ae := {| read_response := ApiError down; sheet_id := Some 0;
                 now := {| year := 2026; month := 3; day := 7 |};
                 update_error := None; append_error := ae |} in
  let row := {| order_number := "1001"; tracking_number := "TRACK123";
                date_added := "07-03-2026";
                tracking_link := "https://parcelsapp.com/en/tracking/TRACK123";
                completed := false |} in
  _get_existing_data (ApiError down) = Ok empty_frame
  /\ (forall err, _get_existing_data (ApiError down) <> Raise err)
  /\ bulk_update_orders (e None) [("1001", "TRACK123")]
     = {| calls := [values_append [row]; setDataValidation 0 1 2];
          returned := Ok (1, 0, 0) |}
  /\ bulk_update_orders (e (Some down)) [("1001", "TRACK123")]
     = {| calls := [values_append [row]];
          returned := Raise (Wrapped "Failed to bulk update orders: " down) |}.
Proof.
  cbv zeta. split; [reflexivity|]. split; [intros err; discriminate|].
  split; reflexivity.
Qed.

(** C5. For a non-empty tracking number the link is the fixed template
    with the number appended as it stands, whatever its characters; for
    the empty tracking number the link is the empty string. *)
Theorem tracking_link_template (T : string) :
  (T <> "" ->
   _generate_tracking_link T = "https://parcelsapp.com/en/tracking/" ++ T)
  /\ (T = "" -> _generate_tracking_link T = "").
Proof.
  unfold _generate_tracking_link. split.
  - intros H. apply is_empty_false in H. now rewrite H.
  - intros ->. reflexivity.
Qed.

Lemma tracking_link_template_witness :
  "UK 216/203?823" <> ""
  /\ _generate_tracking_link "UK 216/203?823"
     = "https://parcelsapp.com/en/tracking/UK 216/203?823"
  /\ _generate_tracking_link "" = "".
Proof.
  split; [discriminate|]. split.
  - apply (proj1 (tracking_link_template "UK 216/203?823")). discriminate.
  - apply (proj2 (tracking_link_template "")). reflexivity.
Defined.

End Accessor.

(** ** Classification of one pair *)

Section Classification.

Import Pandas GoogleSheetsService Spec.

(** C8, at the failing input. The ledger holds the one order "10#01",
    as a first run appends it for the line "10#01 OLD111", and the bulk
    form is given the line "1001 NEW222". No existing row
    matches: the order number of the row, trimmed and with its leading [#]
    removed, is "10#01", that of the pair is "1001". Yet no new row is
    emitted and added stays 0: the ledger side is compared with every [#]
    removed, so the row "10#01" is taken for the order and its tracking
    number, date and link are overwritten. The scenario of the claim does
    hold: against a blank sheet, or a sheet with only its header, the
    line "#1001 TRACK123" ends with added = 1, updated = 0, skipped = 0
    and the append of the one row (1001, TRACK123, today, link, false). *)
Theorem unmatched_pair_overwrites_another_order :
  forall (sid : option nat) (d : datetime),
    let header := ["Order Number"; "Tracking Number"; "Date Added";
                   "Tracking Link"; "Completed"] in
    let sheet values := {| read_response := ApiOk values; sheet_id := sid;
                           now := d;
                           update_error := None; append_error := None |} in
    let e := sheet [header;
                    ["10#01"; "OLD111"; "01-01-2026";
                     "https://parcelsapp.com/en/tracking/OLD111"; "FALSE"]] in
    let row := {| order_number := "1001"; tracking_number := "TRACK123";
                  date_added := strftime_dmy d;
                  tracking_link := "https://parcelsapp.com/en/tracking/TRACK123";
                  completed := false |} in
    App.bulk_update (sheet [header]) "10#01 OLD111"
    = App.Completed [] 0
        (values_append
           [{| order_number := "10#01"; tracking_number := "OLD111";
               date_added := strftime_dmy d;
               tracking_link := "https://parcelsapp.com/en/tracking/OLD111";
               completed := false |}]
         :: _setup_checkbox_validation (sheet [header]) 2 2)
        1 0 0
    /\ canonical (Some "10#01") = "10#01"
    /\ clean_order_number "1001" = "1001"
    /\ App.bulk_update e "1001 NEW222"
       = App.Completed [] 0
           [values_batchUpdate
              [{| range_sheet := "Sheet1"; range_column := "B"; range_row := 2;
                  cell_value := "NEW222" |};
               {| range_sheet := "Sheet1"; range_column := "C"; range_row := 2;
                  cell_value := strftime_dmy d |};
               {| range_sheet := "Sheet1"; range_column := "D"; range_row := 2;
                  cell_value := "https://parcelsapp.com/en/tracking/NEW222" |}]]
           0 1 0
    /\ App.bulk_update (sheet []) "#1001 TRACK123"
       = App.Completed [] 0
           (values_append [row] :: _setup_checkbox_validation (sheet []) 2 2)
           1 0 0
    /\ App.bulk_update (sheet [header]) "#1001 TRACK123"
       = App.Completed [] 0
           (values_append [row]
            :: _setup_checkbox_validation (sheet [header]) 2 2)
           1 0 0.
Proof. intros sid d. cbv zeta. repeat split; reflexivity. Qed.

(** C9, at the failing input. The ledger holds the orders "10#01",
    "1001" and "1001" on the sheet rows 2, 3 and 4, and the bulk form is
    given the line "1001 NEW222". The rows whose order number, trimmed and
    with its leading [#] removed, equals that of the pair are the rows 3
    and 4; the one update of the call targets the row 2, which is not one
    of them: the ledger side is compared with every [#] removed, and the
    search stops at the first row that is equal then. On a ledger without
    an inner [#] the first of the rows with the order number is targeted,
    and only that row: with "7001", " #1001", "1001" on the rows 2, 3 and
    4, the three writes are on the row 3. *)
Theorem first_match_is_taken_after_removing_every_hash :
  forall (sid : option nat) (d : datetime),
    let header := ["Order Number"; "Tracking Number"; "Date Added";
                   "Tracking Link"; "Completed"] in
    let entry o := [o; "OLD111"; "01-01-2026";
                    "https://parcelsapp.com/en/tracking/OLD111"; "FALSE"] in
    let e orders := {| read_response := ApiOk (header :: map entry orders);
                       sheet_id := sid; now := d;
                       update_error := None; append_error := None |} in
    let writes row :=
      [values_batchUpdate
         [{| range_sheet := "Sheet1"; range_column := "B"; range_row := row;
             cell_value := "NEW222" |};
          {| range_sheet := "Sheet1"; range_column := "C"; range_row := row;
             cell_value := strftime_dmy d |};
          {| range_sheet := "Sheet1"; range_column := "D"; range_row := row;
             cell_value := "https://parcelsapp.com/en/tracking/NEW222" |}]] in
    map canonical [Some "10#01"; Some "1001"; Some "1001"]
    = ["10#01"; "1001"; "1001"]
    /\ clean_order_number "1001" = "1001"
    /\ App.bulk_update (e ["10#01"; "1001"; "1001"]) "1001 NEW222"
       = App.Completed [] 0 (writes 2) 0 1 0
    /\ map canonical [Some "7001"; Some " #1001"; Some "1001"]
       = ["7001"; "1001"; "1001"]
    /\ App.bulk_update (e ["7001"; " #1001"; "1001"]) "1001 NEW222"
       = App.Completed [] 0 (writes 3) 0 1 0.
Proof. intros sid d. cbv zeta. repeat split; reflexivity. Qed.

End Classification.

(** ** The batch of updates *)

Section Updates.

Import Pandas GoogleSheetsService Spec.

Lemma two_digits_length (n : nat) :
  n < 100 -> String.length (two_digits n) = 2.
Proof.
  intros H.
  assert (A : forallb (fun k => (String.length (two_digits k) =? 2)%nat) (seq 0 100) = true)
    by (vm_compute; reflexivity).
  rewrite forallb_forall in A.
  apply Nat.eqb_eq, A, in_seq. lia.
Qed.

Lemma year_length (n : nat) :
  1000 <= n < 10 * 1000 -> String.length (PyStr.str_of_nat n) = 4.
Proof.
  intros H.
  assert (A : forallb (fun k => (String.length (PyStr.str_of_nat k) =? 4)%nat)
                (seq 1000 (9 * 1000)) = true)
    by (vm_compute; reflexivity).
  rewrite forallb_forall in A.
  apply Nat.eqb_eq, A, in_seq. lia.
Qed.

(** The date string has the shape DD-MM-YYYY for every calendar date with
    a four-digit year. *)
Lemma strftime_dmy_shape (d : datetime) :
  day d < 100 -> month d < 100 -> 1000 <= year d < 10 * 1000 ->
  exists dd mm yyyy,
    strftime_dmy d = dd ++ "-" ++ mm ++ "-" ++ yyyy
    /\ String.length dd = 2 /\ String.length mm = 2 /\ String.length yyyy = 4.
Proof.
  intros Hd Hm Hy.
  exists (two_digits (day d)), (two_digits (month d)), (PyStr.str_of_nat (year d)).
  split; [reflexivity|].
  auto using two_digits_length, year_length.
Qed.

(** C7, at the failing input. The ledger holds the order "A#1", as a
    first run appends it for the line "A#1 OLD111", and the bulk form is
    given the line "A#1 NEW222". The pair matches the existing row: both
    order numbers, trimmed and with their leading [#] removed, are "A#1".
    Yet no update is emitted: the ledger side is compared with every [#]
    removed, "A1", the search finds no row, and the call sends no write to
    the cells of the row, whose tracking number, date and link stay as
    they were; the order is appended as a second row instead. *)
Theorem matching_row_with_inner_hash_is_not_updated :
  forall (sid : option nat) (d : datetime),
    let header := ["Order Number"; "Tracking Number"; "Date Added";
                   "Tracking Link"; "Completed"] in
    let sheet values := {| read_response := ApiOk values; sheet_id := sid;
                           now := d;
                           update_error := None; append_error := None |} in
    let e := sheet [header;
                    ["A#1"; "OLD111"; "01-01-2026";
                     "https://parcelsapp.com/en/tracking/OLD111"; "FALSE"]] in
    let row t := {| order_number := "A#1"; tracking_number := t;
                    date_added := strftime_dmy d;
                    tracking_link := "https://parcelsapp.com/en/tracking/" ++ t;
                    completed := false |} in
    App.bulk_update (sheet [header]) "A#1 OLD111"
    = App.Completed [] 0
        (values_append [row "OLD111"]
         :: _setup_checkbox_validation (sheet [header]) 2 2)
        1 0 0
    /\ canonical (Some "A#1") = clean_order_number "A#1"
    /\ clean_existing (Some "A#1") = "A1"
    /\ existing_row_idx (Some [Some "A#1"]) (clean_order_number "A#1") = None
    /\ App.bulk_update e "A#1 NEW222"
       = App.Completed [] 0
           (values_append [row "NEW222"] :: _setup_checkbox_validation e 3 3)
           1 0 0.
Proof. intros sid d. cbv zeta. repeat split; reflexivity. Qed.

End Updates.

(** ** Normalisation of order numbers *)

Section Normalisation.

Import Pandas GoogleSheetsService Spec.

(** On the input side [#X] and [X] both give [X], for a token [X] without
    surrounding blanks that does not itself start with [#]. *)
Lemma hash_stripping (X : string) :
  PyStr.strip X = X -> PyStr.startswith "#" X = false ->
  clean_order_number (String "#" X) = X /\ clean_order_number X = X.
Proof.
  intros HX Hh. destruct (strip_fixed X HX) as [_ Hr].
  unfold clean_order_number. split.
  - unfold PyStr.strip. simpl. rewrite Hr. reflexivity.
  - now rewrite HX, Hh.
Qed.

(** The two cleanings agree on a cell whose canonical order number holds
    no [#]. *)
Lemma clean_existing_agrees (c : cell) :
  PyStr.contains "#" (canonical c) = false -> clean_existing c = canonical c.
Proof.
  unfold canonical, clean_existing, clean_order_number.
  destruct (PyStr.strip (astype_str c)) as [|a r]; simpl; [reflexivity|].
  destruct (Ascii.eqb a "#") eqn:E.
  - intros H. now apply remove_char_absent.
  - intros H. simpl in H. rewrite E in H. simpl in H.
    now rewrite (remove_char_absent _ _ H).
Qed.

(** C2, at the failing inputs. The input side removes one leading [#],
    the ledger side removes every [#]. With an order number that has a
    [#] inside, the row that a first run appended for "A#1" is not found by
    a second run with the same order number, which is added again; and the
    ledger row "10#01" is updated by the input "1001", whose canonical
    order number is a different string. *)
Theorem inner_hash_is_cleaned_differently :
  forall (sid : option nat) (d : datetime),
    let ledger o :=
      ApiOk [["Order Number"; "Tracking Number"; "Date Added";
              "Tracking Link"; "Completed"];
             [o; "OLD111"; "01-01-2026";
              "https://parcelsapp.com/en/tracking/OLD111"; "FALSE"]] in
    let e o := {| read_response := ledger o; sheet_id := sid; now := d;
                  update_error := None; append_error := None |} in
    let blank := {| read_response := ApiOk []; sheet_id := sid; now := d;
                    update_error := None; append_error := None |} in
    calls (bulk_update_orders blank [("A#1", "OLD111")])
    = values_append
        [{| order_number := "A#1"; tracking_number := "OLD111";
            date_added := strftime_dmy d;
            tracking_link := "https://parcelsapp.com/en/tracking/OLD111";
            completed := false |}]
      :: _setup_checkbox_validation blank 2 2
    /\ clean_order_number "A#1" = "A#1"
    /\ clean_existing (Some "A#1") = "A1"
    /\ returned (bulk_update_orders (e "A#1") [("A#1", "NEW222")]) = Ok (1, 0, 0)
    /\ clean_order_number "10#01" <> clean_order_number "1001"
    /\ returned (bulk_update_orders (e "10#01") [("1001", "NEW222")]) = Ok (0, 1, 0).
Proof.
  intros sid d. cbv zeta.
  split; [reflexivity|].
  split; [reflexivity|]. split; [reflexivity|]. split; [reflexivity|].
  split; [discriminate | reflexivity].
Qed.

End Normalisation.

(** ** The line parser of the bulk form *)

Section Parser.

Import PyStr App Spec.

Lemma parse_line_blank (n : nat) (raw : string) :
  parse_line n raw = Blank <-> strip raw = "".
Proof.
  unfold parse_line. destruct (strip raw) as [|c r] eqn:E.
  - simpl. tauto.
  - cbn [is_empty]. split; [|discriminate].
    destruct (split1 " " (String c r)) as [|p0 [|p1 [|p2 l]]]; try discriminate.
    cbv zeta.
    match goal with
    | |- context [if orb ?x ?y then _ else _] => destruct (orb x y); discriminate
    end.
Qed.

(** The text before the first space of a stripped line is not blank, and
    neither is the text after it. *)
Lemma first_space_sides (raw a b : string) :
  strip raw = a ++ String " " b -> contains " " a = false ->
  strip a <> "" /\ strip b <> "".
Proof.
  intros E Ha. split.
  - destruct a as [|c a].
    + simpl in E. apply strip_head in E. discriminate.
    + simpl in E. apply strip_head in E.
      unfold strip. simpl. rewrite E. simpl. rewrite E. discriminate.
  - intros Hb. apply strip_empty in Hb.
    pose proof (strip_idem_r raw) as R. rewrite E in R.
    rewrite rstrip_app_space in R by (simpl; exact Hb).
    pose proof (rstrip_length a) as L. rewrite R in L.
    rewrite length_append in L. simpl in L. lia.
Qed.

Lemma clean_empty_iff (a : string) :
  strip a <> "" ->
  (GoogleSheetsService.clean_order_number a = "" <-> strip a = "#").
Proof.
  unfold GoogleSheetsService.clean_order_number.
  destruct (strip a) as [|c r]; [congruence|]. intros _. simpl.
  destruct (Ascii.eqb_spec c "#") as [->|Hc].
  - split; [now intros -> | intros H; now injection H].
  - split; [discriminate | intros H; injection H as H _; contradiction].
Qed.

Lemma parse_loop_closed_form (lines : list string) :
  forall n ps es,
    parse_loop n lines ps es
    = ((ps ++ pairs_from n lines)%list, (es ++ errors_from n lines)%list).
Proof.
  induction lines as [|raw rest IH]; intros n ps es; simpl.
  - now rewrite !app_nil_r.
  - unfold pairs_of_line, errors_of_line.
    destruct (parse_line n raw); rewrite IH; simpl;
      now rewrite <- ?app_assoc.
Qed.

Lemma parse_lengths (lines : list string) (n : nat) :
  length (pairs_from n lines) + length (errors_from n lines) + blank_lines lines
  = length lines.
Proof.
  unfold blank_lines. revert n.
  induction lines as [|raw rest IH]; intros n; simpl; [reflexivity|].
  rewrite !length_app. specialize (IH (S n)).
  unfold pairs_of_line, errors_of_line.
  destruct (parse_line n raw) eqn:E.
  - apply parse_line_blank in E. rewrite E. simpl. lia.
  - assert (B : strip raw <> "") by (rewrite <- parse_line_blank, E; discriminate).
    apply is_empty_false in B. rewrite B. simpl. lia.
  - assert (B : strip raw <> "") by (rewrite <- parse_line_blank, E; discriminate).
    apply is_empty_false in B. rewrite B. simpl. lia.
Qed.

(** C10 (as the code has it). A line is stripped first. A blank line is
    ignored. A line without a space is reported as a parse error. A line
    with a space is cut at its first space only: the order token is the
    text before it, stripped and with one leading [#] removed; the
    tracking token is all the text after it, stripped, so that inner
    spaces stay. That line is reported as a parse error when its order
    token is empty, which is when the text before the space is a lone [#];
    otherwise it gives a pair. Every line is exactly one of blank, parse
    error or pair. *)
Theorem parse_line_cases :
  (forall (n : nat) (raw : string),
      let line := strip raw in
      (line = "" -> parse_line n raw = Blank)
      /\ (line <> "" -> contains " " line = false ->
          parse_line n raw = Bad (InvalidFormat n line))
      /\ (forall a b : string,
             line = a ++ String " " b -> contains " " a = false ->
             strip a <> "" /\ strip b <> ""
             /\ (strip a = "#" -> parse_line n raw = Bad (EmptyField n))
             /\ (strip a <> "#" ->
                 parse_line n raw
                 = Good (GoogleSheetsService.clean_order_number a) (strip b)
                 /\ GoogleSheetsService.clean_order_number a <> ""))
      /\ (line = "" \/ contains " " line = false
          \/ exists a b : string,
               line = a ++ String " " b /\ contains " " a = false))
  /\ (forall lines : list string,
         parse lines = (pairs_from 1 lines, errors_from 1 lines)
         /\ length (fst (parse lines)) + length (snd (parse lines))
            + blank_lines lines = length lines).
Proof.
  split.
  - intros n raw. cbv zeta. split; [|split; [|split]].
    4: { destruct (contains " " (strip raw)) eqn:C; [|tauto].
         right. right. now apply contains_cut. }
    + intros H. now apply parse_line_blank.
    + intros H Hs. unfold parse_line. apply is_empty_false in H.
      rewrite H, (split1_none _ _ Hs). reflexivity.
    + intros a b E Ha.
      destruct (first_space_sides raw a b E Ha) as [Na Nb].
      split; [exact Na|]. split; [exact Nb|].
      assert (P : parse_line n raw
                  = if is_empty (GoogleSheetsService.clean_order_number a)
                       || is_empty (strip b)
                    then Bad (EmptyField n)
                    else Good (GoogleSheetsService.clean_order_number a) (strip b)).
      { unfold parse_line. rewrite E, (split1_first _ _ _ Ha).
        destruct a; reflexivity. }
      pose proof (proj2 (is_empty_false _) Nb) as Fb.
      split.
      * intros Hh. apply (clean_empty_iff a Na) in Hh.
        rewrite P, Hh. reflexivity.
      * intros Hh.
        assert (Nc : GoogleSheetsService.clean_order_number a <> "")
          by (intros C; apply Hh; now apply (clean_empty_iff a Na)).
        split; [|exact Nc].
        rewrite P, Fb, (proj2 (is_empty_false _) Nc). reflexivity.
  - intros lines. unfold parse. rewrite parse_loop_closed_form. simpl.
    split; [reflexivity|]. apply parse_lengths.
Qed.

Lemma parse_line_cases_witness :
  parse_line 3 "  #3695239669   UK 216 203  " = Good "3695239669" "UK 216 203"
  /\ parse_line 4 " # UK216203823YP" = Bad (EmptyField 4).
Proof.
  pose proof (proj1 parse_line_cases 3 "  #3695239669   UK 216 203  ") as H.
  cbv zeta in H. destruct H as (_ & _ & H & _).
  specialize (H "#3695239669" "  UK 216 203" eq_refl eq_refl).
  destruct H as (_ & _ & _ & H).
  pose proof (proj1 parse_line_cases 4 " # UK216203823YP") as K.
  cbv zeta in K. destruct K as (_ & _ & K & _).
  specialize (K "#" "UK216203823YP" eq_refl eq_refl).
  destruct K as (_ & _ & K & _).
  split.
  - exact (proj1 (H ltac:(discriminate))).
  - exact (K eq_refl).
Defined.

(** C10, refuted as stated: the line "# UK216203823YP" is not blank and
    contains a space, yet it is reported as a parse error and gives no
    pair. *)
Lemma parse_error_counterexample :
  strip "# UK216203823YP" <> ""
  /\ contains " " (strip "# UK216203823YP") = true
  /\ parse ["# UK216203823YP"] = ([], [EmptyField 1]).
Proof. split; [discriminate|]. split; reflexivity. Qed.

End Parser.

(** ** Dictionaries and the removal of duplicates *)

Section Dedup.

Import PyDict Spec.

Lemma get_setitem_same {V : Type} (k : string) (v : V) (d : dict V) :
  get k (setitem k v d) = Some v.
Proof.
  induction d as [|[k' v'] d IH]; simpl.
  - now rewrite String.eqb_refl.
  - destruct (String.eqb k' k) eqn:E; simpl; rewrite E; [reflexivity | exact IH].
Qed.

Lemma get_setitem_other {V : Type} (k k' : string) (v : V) (d : dict V) :
  k' <> k -> get k' (setitem k v d) = get k' d.
Proof.
  intros N. induction d as [|[k0 v0] d IH]; simpl.
  - apply String.eqb_neq in N. now rewrite String.eqb_sym, N.
  - destruct (String.eqb k0 k) eqn:E; simpl.
    + apply String.eqb_eq in E. subst k0.
      apply String.eqb_neq in N. now rewrite String.eqb_sym, N.
    + now rewrite IH.
Qed.

Lemma get_none_keys {V : Type} (k : string) (d : dict V) :
  get k d = None <-> ~ In k (keys d).
Proof.
  induction d as [|[k' v'] d IH]; simpl; [tauto|].
  destruct (String.eqb_spec k' k) as [->|N].
  - split; [discriminate | intros H; exfalso; apply H; now left].
  - rewrite IH. tauto.
Qed.

Lemma keys_setitem {V : Type} (k : string) (v : V) (d : dict V) :
  keys (setitem k v d) = if mem k d then keys d else (keys d ++ [k])%list.
Proof.
  unfold mem. induction d as [|[k' v'] d IH]; simpl; [reflexivity|].
  destruct (String.eqb k' k) eqn:E; simpl; [reflexivity|].
  rewrite IH. now destruct (get k d).
Qed.

Lemma keys_setitem_in {V : Type} (k k' : string) (v : V) (d : dict V) :
  In k' (keys (setitem k v d)) <-> k' = k \/ In k' (keys d).
Proof.
  rewrite keys_setitem. unfold mem.
  destruct (get k d) eqn:E.
  - split; [tauto|]. intros [->|H]; [|exact H].
    destruct (in_dec string_dec k (keys d)) as [I|I]; [exact I|].
    apply get_none_keys in I. congruence.
  - rewrite in_app_iff. simpl. intuition congruence.
Qed.

Lemma keys_setitem_nodup {V : Type} (k : string) (v : V) (d : dict V) :
  NoDup (keys d) -> NoDup (keys (setitem k v d)).
Proof.
  intros H. rewrite keys_setitem. unfold mem.
  destruct (get k d) eqn:E; [exact H|].
  apply get_none_keys in E.
  apply NoDup_app; [exact H | repeat constructor; intros [] |].
  intros x Hx [<-|[]]. contradiction.
Qed.

Lemma in_get {V : Type} (k : string) (v : V) (d : dict V) :
  NoDup (keys d) -> (In (k, v) d <-> get k d = Some v).
Proof.
  induction d as [|[k' v'] d IH]; simpl; intros H.
  - split; [tauto | discriminate].
  - inversion H as [|? ? Hk Hd]; subst.
    destruct (String.eqb_spec k' k) as [->|N].
    + split.
      * intros [E|I]; [congruence|].
        exfalso. apply Hk. change k with (fst (k, v)). now apply in_map.
      * intros E. left. congruence.
    + rewrite <- (IH Hd). split; [intros [E|I]; [congruence | exact I] | tauto].
Qed.


(** The dictionary built by the loop [d[o] = t] from a dictionary [d]. *)
Lemma fold_setitem (ps : list (string * string)) :
  forall d : dict string,
    NoDup (keys d) ->
    let d' := fold_left (fun d p => setitem (fst p) (snd p) d) ps d in
    NoDup (keys d')
    /\ (forall k, In k (keys d') <-> In k (keys d) \/ In k (map fst ps))
    /\ (forall k, get k d' = match last_tracking k ps with
                             | Some v => Some v
                             | None => get k d
                             end).
Proof.
  induction ps as [|[o t] ps IH]; intros d H; cbv zeta; simpl.
  - repeat split; tauto.
  - specialize (IH (setitem o t d) (keys_setitem_nodup o t d H)).
    cbv zeta in IH. destruct IH as (N & I & G).
    split; [exact N|]. split.
    + intros k. rewrite I, keys_setitem_in. intuition congruence.
    + intros k. rewrite G.
      destruct (last_tracking k ps); [reflexivity|].
      destruct (String.eqb_spec o k) as [->|Nk].
      * apply get_setitem_same.
      * apply get_setitem_other. congruence.
Qed.


Lemma last_tracking_in (k v : string) (ps : list (string * string)) :
  last_tracking k ps = Some v -> In (k, v) ps.
Proof.
  induction ps as [|[o t] ps IH]; simpl; [discriminate|].
  destruct (last_tracking k ps).
  - intros H. right. now apply IH.
  - destruct (String.eqb_spec o k) as [->|N]; [|discriminate].
    intros H. injection H as ->. now left.
Qed.





(** The handler's dictionary: one entry per order number, holding the
    tracking number of its last line. *)
Lemma final_pairs_spec (ps : list (string * string)) :
  NoDup (map fst (App.final_pairs ps))
  /\ (forall k, In k (map fst (App.final_pairs ps)) <-> In k (map fst ps))
  /\ (forall k, get k (App.final_pairs ps) = last_tracking k ps).
Proof.
  unfold App.final_pairs, App.unique_pairs, items.
  destruct (fold_setitem ps [] (NoDup_nil _)) as (N & I & G).
  split; [exact N|]. split.
  - intros k. rewrite (I k). simpl. tauto.
  - intros k. rewrite (G k). now destruct (last_tracking k ps).
Qed.

Lemma final_pairs_subset (ps : list (string * string)) (p : string * string) :
  In p (App.final_pairs ps) -> In p ps.
Proof.
  destruct p as [k v]. destruct (final_pairs_spec ps) as (N & _ & G).
  intros I. apply (in_get k v _ N) in I. rewrite G in I.
  now apply last_tracking_in.
Qed.


Lemma final_pairs_length (ps : list (string * string)) :
  length (App.final_pairs ps) = length (nodup string_dec (map fst ps)).
Proof.
  destruct (final_pairs_spec ps) as (N & I & _).
  rewrite <- (length_map fst (App.final_pairs ps)).
  apply Permutation_length, NoDup_Permutation.
  - exact N.
  - apply NoDup_nodup.
  - intros k. rewrite nodup_In. apply I.
Qed.

End Dedup.

Section DedupClaims.

Import PyDict Pandas GoogleSheetsService Spec.





End DedupClaims.

(** ** Count conservation of the bulk form *)

Section Counts.

Import PyStr Pandas GoogleSheetsService App Spec.

Lemma parse_line_good (n : nat) (raw o t : string) :
  parse_line n raw = Good o t -> o <> "" /\ t <> "".
Proof.
  unfold parse_line. destruct (is_empty (strip raw)); [discriminate|].
  destruct (split1 " " (strip raw)) as [|p0 [|p1 [|p2 l]]]; try discriminate.
  cbv zeta.
  match goal with
  | |- context [if orb ?x ?y then _ else _] => destruct (orb x y) eqn:E
  end; [discriminate|].
  intros H. injection H as <- <-.
  apply orb_false_iff in E. destruct E as [E1 E2].
  split; now apply is_empty_false.
Qed.

Lemma pairs_from_nonempty (lines : list string) :
  forall n o t, In (o, t) (pairs_from n lines) -> o <> "" /\ t <> "".
Proof.
  induction lines as [|raw rest IH]; intros n o t; simpl; [tauto|].
  rewrite in_app_iff. intros [H|H]; [|now apply (IH (S n))].
  unfold pairs_of_line in H.
  destruct (parse_line n raw) eqn:E; try contradiction.
  destruct H as [H|[]]. injection H as -> ->.
  now apply (parse_line_good n raw).
Qed.

Lemma get_existing_data_ok (resp : api_response) :
  exists df, _get_existing_data resp = Ok df.
Proof.
  destruct resp as [[|header data]|x]; simpl; eauto.
  destruct (DataFrame_of data header); eauto.
Qed.

(** The requests sent are those of [commit] when no write is refused. *)
Lemma commit_outcome_none (e : env) (df : DataFrame) (st : loop_state) :
  snd (commit_outcome e df st) = None ->
  fst (commit_outcome e df st) = commit e df st.
Proof.
  unfold commit_outcome, commit. cbv zeta.
  destruct (rows_to_update st) as [|u us];
    destruct (update_error e); destruct (rows_to_add st) as [|r rs];
    destruct (append_error e); cbn [fst snd app]; try discriminate;
    reflexivity.
Qed.

Lemma commit_outcome_accepted (e : env) (df : DataFrame) (st : loop_state) :
  update_error e = None -> append_error e = None ->
  commit_outcome e df st = (commit e df st, None).
Proof.
  intros U A. unfold commit_outcome, commit. cbv zeta. rewrite U, A.
  destruct (rows_to_update st) as [|u us]; destruct (rows_to_add st) as [|r rs];
    reflexivity.
Qed.

(** A write phase that raises was refused a write by the store. *)
Lemma commit_outcome_refused (e : env) (df : DataFrame) (st : loop_state)
  (x : exn) :
  snd (commit_outcome e df st) = Some x ->
  update_error e = Some x \/ append_error e = Some x.
Proof.
  unfold commit_outcome. cbv zeta.
  destruct (rows_to_update st) as [|u us];
    destruct (update_error e); destruct (rows_to_add st) as [|r rs];
    destruct (append_error e); cbn [fst snd]; intros H;
    try discriminate; injection H as ->; auto.
Qed.

(** [bulk_update_orders] either reports the failed column lookup, or
    sends its writes and returns the counters of the loop unless a write
    is refused. *)
Lemma bulk_update_orders_returned (e : env) (pairs : list (string * string)) :
  forall df, _get_existing_data (read_response e) = Ok df ->
    match order_column_of df with
    | Raise x => bulk_update_orders e pairs
                 = {| calls := []; returned := Raise (wrap x) |}
    | Ok col =>
        let st := reconcile col (strftime_dmy (now e)) pairs in
        bulk_update_orders e pairs
        = {| calls := fst (commit_outcome e df st);
             returned :=
               match snd (commit_outcome e df st) with
               | Some x => Raise (wrap x)
               | None =>
                   Ok (added_count st, updated_count st, skipped_count st)
               end |}
    end.
Proof.
  intros df H. unfold bulk_update_orders. rewrite H.
  destruct (order_column_of df); reflexivity.
Qed.

Lemma no_skip_when_nonempty (pairs : list (string * string)) :
  (forall o t, In (o, t) pairs -> o <> "" /\ t <> "") ->
  filter skipped_pair pairs = [].
Proof.
  induction pairs as [|[o t] pairs IH]; intros H; simpl; [reflexivity|].
  destruct (H o t (or_introl eq_refl)) as [Ho Ht].
  rewrite (not_skipped o t Ho Ht). apply IH.
  intros o' t' I. apply H. now right.
Qed.

End Counts.

Section CountClaims.

Import PyStr Pandas GoogleSheetsService App Spec.

Lemma parse_closed_form (lines : list string) :
  parse lines = (pairs_from 1 lines, errors_from 1 lines).
Proof. unfold parse. now rewrite parse_loop_closed_form. Qed.

(** The handler, once the text is not blank and one line has parsed, in
    terms of the service call on the pairs without duplicates. *)
Lemma bulk_update_unfold (e : env) (text : string) :
  let lines := lines_of text in
  let pairs := pairs_from 1 lines in
  let errors := errors_from 1 lines in
  bulk_update e text =
  if is_empty (strip text) then NoOrderData
  else match pairs with
       | [] => NoValidPairs errors
       | _ :: _ =>
           match returned (bulk_update_orders e (final_pairs pairs)) with
           | Ok (a, u, s) =>
               Completed errors (length pairs - length (final_pairs pairs))
                 (calls (bulk_update_orders e (final_pairs pairs))) a u s
           | Raise x =>
               Failed errors (length pairs - length (final_pairs pairs)) x
           end
       end.
Proof.
  cbv zeta. unfold bulk_update, lines_of.
  destruct (is_empty (strip text)); [reflexivity|].
  rewrite parse_closed_form.
  destruct (pairs_from 1 (split "010" (strip text))); reflexivity.
Qed.

(** C4 (as the code has it). When the bulk form is processed to its
    end, the three counts add up to the number of distinct order numbers
    among the lines that parsed, and skipped is 0 (every parsed pair has
    two non-empty fields). Blank lines, parse errors and the duplicates
    removed from the batch are each counted apart: together with the three
    counts they account for every raw line. Whenever one line parses
    and the frame read from the ledger is empty or has its order-number
    column, the handler does reach that end, unless the store refuses a
    write: the request then ends with the error of that write. *)
Theorem bulk_counts_account_for_lines :
  (forall (e : env) (text : string) (pe : list parse_error) (dups : nat)
          (cs : list api_call) (a u s : nat),
      bulk_update e text = Completed pe dups cs a u s ->
      let lines := lines_of text in
      let pairs := fst (parse lines) in
      pe = snd (parse lines)
      /\ dups + length (nodup string_dec (map fst pairs)) = length pairs
      /\ s = 0
      /\ a + u + s = length (nodup string_dec (map fst pairs))
      /\ a + u + s + dups + length pe + blank_lines lines = length lines)
  /\ (forall (e : env) (text : string) (df : DataFrame)
             (col : option (list cell)),
         fst (parse (lines_of text)) <> [] ->
         _get_existing_data (read_response e) = Ok df ->
         order_column_of df = Ok col ->
         (exists pe dups cs a u s,
             bulk_update e text = Completed pe dups cs a u s)
         \/ (exists pe dups x,
                bulk_update e text
                = Failed pe dups (Wrapped "Failed to bulk update orders: " x)
                /\ (update_error e = Some x \/ append_error e = Some x))).
Proof.
  split.
  - intros e text pe dups cs a u s H. cbv zeta.
    rewrite parse_closed_form. simpl fst; simpl snd.
    pose proof (bulk_update_unfold e text) as U. cbv zeta in U.
    rewrite U in H. clear U.
    destruct (is_empty (strip text)); [discriminate|].
    pose proof (parse_lengths (lines_of text) 1) as L.
    pose proof (pairs_from_nonempty (lines_of text) 1) as NE.
    set (pairs := pairs_from 1 (lines_of text)) in *.
    destruct pairs as [|p0 rest] eqn:Ep; [discriminate|].
    rewrite <- Ep in *. clear Ep p0 rest.
    destruct (get_existing_data_ok (read_response e)) as [df Hdf].
    pose proof (bulk_update_orders_returned e (final_pairs pairs) df Hdf) as R.
    destruct (order_column_of df) as [col|x].
    + cbv zeta in R. rewrite R in H. cbn [returned calls] in H.
      destruct (snd (commit_outcome e df
                       (reconcile col (strftime_dmy (now e)) (final_pairs pairs))));
        [discriminate|].
      injection H as <- <- _ <- <- <-.
      pose proof (reconcile_counts col (strftime_dmy (now e)) (final_pairs pairs)) as C.
      cbv zeta in C.
      destruct (reconcile_closed_form col (strftime_dmy (now e)) (final_pairs pairs))
        as (_ & _ & _ & _ & S).
      assert (Z : filter skipped_pair (final_pairs pairs) = []).
      { apply no_skip_when_nonempty. intros o t I.
        apply (NE o t). now apply final_pairs_subset. }
      rewrite Z in S. simpl in S.
      pose proof (final_pairs_length pairs) as FL.
      assert (LE : length (final_pairs pairs) <= length pairs).
      { rewrite FL, <- (length_map fst pairs).
        apply NoDup_incl_length; [apply NoDup_nodup|].
        intros k. now rewrite nodup_In. }
      rewrite <- FL. repeat split; lia.
    + rewrite R in H. cbn [returned] in H. discriminate.
  - intros e text df col Hp Hdf Hcol.
    rewrite parse_closed_form in Hp. simpl fst in Hp.
    pose proof (bulk_update_unfold e text) as U. cbv zeta in U. rewrite U.
    destruct (is_empty (strip text)) eqn:Et.
    + exfalso. apply Hp. unfold lines_of.
      apply is_empty_true in Et. rewrite Et. reflexivity.
    + destruct (pairs_from 1 (lines_of text)) as [|p0 rest] eqn:Ep;
        [contradiction|].
      pose proof (bulk_update_orders_returned e (final_pairs (p0 :: rest)) df Hdf) as R.
      rewrite Hcol in R. cbv zeta in R. rewrite R. cbn [returned calls].
      destruct (snd (commit_outcome e df
                       (reconcile col (strftime_dmy (now e))
                          (final_pairs (p0 :: rest))))) as [x|] eqn:W.
      * right. do 3 eexists. split; [reflexivity|].
        exact (commit_outcome_refused e df _ x W).
      * left. eauto 10.
Qed.

Lemma bulk_counts_account_for_lines_witness :
  let e := {| read_response := ApiOk []; sheet_id := Some 0;
              now := {| year := 2026; month := 3; day := 7 |};
              update_error := None; append_error := None |} in
  let text := "1 A" ++ String "010" ("" ++ String "010" ("oops" ++ String "010"
              ("# T" ++ String "010" ("1 B" ++ String "010" "2 C")))) in
  let row o t := {| order_number := o; tracking_number := t;
                    date_added := "07-03-2026";
                    tracking_link := "https://parcelsapp.com/en/tracking/" ++ t;
                    completed := false |} in
  let cs := [values_append [row "1" "B"; row "2" "C"]; setDataValidation 0 1 3] in
  bulk_update e text
  = Completed [InvalidFormat 3 "oops"; EmptyField 4] 1 cs 2 0 0
  /\ 2 + 0 + 0 + 1 + 2 + blank_lines (lines_of text) = length (lines_of text).
Proof.
  cbv zeta. split; [reflexivity|].
  exact (proj2 (proj2 (proj2 (proj2
    (proj1 bulk_counts_account_for_lines _ _ _ _ _ _ _ _
       (eq_refl : bulk_update
          {| read_response := ApiOk []; sheet_id := Some 0;
             now := {| year := 2026; month := 3; day := 7 |};
             update_error := None; append_error := None |}
          ("1 A" ++ String "010" ("" ++ String "010" ("oops" ++ String "010"
             ("# T" ++ String "010" ("1 B" ++ String "010" "2 C")))))
        = Completed [InvalidFormat 3 "oops"; EmptyField 4] 1
            [values_append
               [{| order_number := "1"; tracking_number := "B";
                   date_added := "07-03-2026";
                   tracking_link := "https://parcelsapp.com/en/tracking/B";
                   completed := false |};
                {| order_number := "2"; tracking_number := "C";
                   date_added := "07-03-2026";
                   tracking_link := "https://parcelsapp.com/en/tracking/C";
                   completed := false |}];
             setDataValidation 0 1 3] 2 0 0)))))).
Defined.

(** C4, refuted as stated: two lines with the same order number, or a
    blank line between two orders, are raw lines that fail no parse and
    yet are in none of the three counts. *)
Lemma count_conservation_counterexample :
  let e := {| read_response := ApiOk []; sheet_id := Some 0;
              now := {| year := 2026; month := 3; day := 7 |};
              update_error := None; append_error := None |} in
  let twice := "1 A" ++ String "010" "1 B" in
  let gap := "1 A" ++ String "010" ("" ++ String "010" "2 B") in
  (length (lines_of twice) = 2
   /\ snd (parse (lines_of twice)) = []
   /\ exists cs, bulk_update e twice = Completed [] 1 cs 1 0 0)
  /\ (length (lines_of gap) = 3
      /\ snd (parse (lines_of gap)) = []
      /\ exists cs, bulk_update e gap = Completed [] 0 cs 2 0 0).
Proof.
  cbv zeta. repeat split; try reflexivity; eexists; reflexivity.
Qed.

End CountClaims.

(** * Further properties of the service *)

Section ServiceLoop.

Import Pandas GoogleSheetsService Spec.

(** X1. The loop classifies every pair on its own, against the frame
    read at the start of the call: for a batch in two parts the counters
    are the sums and the two row lists the concatenations of what each
    part gives alone. *)
Theorem reconcile_batches_compose :
  forall (col : option (list cell)) (today : string)
         (l1 l2 : list (string * string)),
    let s1 := reconcile col today l1 in
    let s2 := reconcile col today l2 in
    let s := reconcile col today (l1 ++ l2)%list in
    added_count s = added_count s1 + added_count s2
    /\ updated_count s = updated_count s1 + updated_count s2
    /\ skipped_count s = skipped_count s1 + skipped_count s2
    /\ rows_to_add s = (rows_to_add s1 ++ rows_to_add s2)%list
    /\ rows_to_update s = (rows_to_update s1 ++ rows_to_update s2)%list.
Proof.
  intros col today l1 l2. cbv zeta.
  destruct (reconcile_closed_form col today l1) as (A1 & U1 & NA1 & NU1 & S1).
  destruct (reconcile_closed_form col today l2) as (A2 & U2 & NA2 & NU2 & S2).
  destruct (reconcile_closed_form col today (l1 ++ l2)) as (A & U & NA & NU & S).
  rewrite NA, NU, S, NA1, NU1, S1, NA2, NU2, S2, A, U, A1, U1, A2, U2.
  rewrite !flat_map_app, filter_app, !length_app. repeat split.
Qed.

(** X2. The three counts do not depend on the order of the pairs, and the
    rows to append are the same up to their order. *)
Theorem reconcile_order_independent :
  forall (col : option (list cell)) (today : string)
         (l1 l2 : list (string * string)),
    Permutation l1 l2 ->
    let s1 := reconcile col today l1 in
    let s2 := reconcile col today l2 in
    added_count s1 = added_count s2
    /\ updated_count s1 = updated_count s2
    /\ skipped_count s1 = skipped_count s2
    /\ Permutation (rows_to_add s1) (rows_to_add s2)
    /\ Permutation (rows_to_update s1) (rows_to_update s2).
Proof.
  intros col today l1 l2 P. cbv zeta.
  destruct (reconcile_closed_form col today l1) as (A1 & U1 & NA1 & NU1 & S1).
  destruct (reconcile_closed_form col today l2) as (A2 & U2 & NA2 & NU2 & S2).
  assert (PA : Permutation (rows_to_add (reconcile col today l1))
                 (rows_to_add (reconcile col today l2))).
  { rewrite A1, A2. now apply Permutation_flat_map. }
  assert (PU : Permutation (rows_to_update (reconcile col today l1))
                 (rows_to_update (reconcile col today l2))).
  { rewrite U1, U2. now apply Permutation_flat_map. }
  rewrite NA1, NA2, NU1, NU2, S1, S2.
  split; [now apply Permutation_length|].
  split; [now apply Permutation_length|].
  split; [|split; assumption].
  apply Permutation_length. clear - P.
  induction P; simpl.
  - constructor.
  - destruct (skipped_pair x); [now constructor | assumption].
  - destruct (skipped_pair x), (skipped_pair y);
      try apply Permutation_refl; constructor.
  - eapply Permutation_trans; eassumption.
Qed.

Lemma reconcile_order_independent_witness :
  let col := Some [Some "1001"] in
  let l1 := [("1001", "A"); ("2002", "B"); ("", "C")] in
  let l2 := [("", "C"); ("2002", "B"); ("1001", "A")] in
  added_count (reconcile col "07-03-2026" l1)
  = added_count (reconcile col "07-03-2026" l2).
Proof.
  cbv zeta.
  refine (proj1 (reconcile_order_independent (Some [Some "1001"]) "07-03-2026"
                   [("1001", "A"); ("2002", "B"); ("", "C")]
                   [("", "C"); ("2002", "B"); ("1001", "A")] _)).
  apply Permutation_rev.
Defined.

Lemma first_true_bound (m : list bool) (i : nat) :
  first_true m = Some i -> i < length m.
Proof.
  intros H. apply first_true_spec in H. destruct H as [H _].
  apply nth_error_Some. congruence.
Qed.

(** X3. Every entry of [rows_to_update] targets a data row of the sheet:
    its row number is at least 2 (never the header) and at most the number
    of existing rows plus one, and the order cell of that row, cleaned, is
    the order number of the entry. *)
Theorem update_targets_existing_row :
  forall (cells : list cell) (today : string)
         (pairs : list (string * string)) (u : update_row),
    In u (rows_to_update (reconcile (Some cells) today pairs)) ->
    2 <= u_row u <= length cells + 1
    /\ (exists c, nth_error cells (u_row u - 2) = Some c
                  /\ clean_existing c = u_order_number u)
    /\ u_date u = today
    /\ u_tracking_link u = _generate_tracking_link (u_tracking_number u)
    /\ u_tracking_number u <> "".
Proof.
  intros cells today pairs u H.
  destruct (reconcile_closed_form (Some cells) today pairs) as (_ & U & _).
  rewrite U in H. apply in_flat_map in H. destruct H as ([o t] & _ & H).
  unfold updates_of in H.
  destruct (skipped_pair (o, t)) eqn:K; [contradiction|].
  simpl fst in H.
  destruct (existing_row_idx (Some cells) (clean_order_number o)) as [i|] eqn:E;
    [|contradiction].
  destruct H as [<-|[]]. simpl.
  pose proof E as B. simpl in B. apply first_true_bound in B.
  rewrite mask_map, length_map in B.
  apply existing_row_idx_first in E. destruct E as [(c & Hc & Ec) _].
  replace (i + 2 - 2) with i by lia.
  split; [lia|]. split; [now exists c|].
  split; [reflexivity|]. split; [reflexivity|].
  unfold skipped_pair in K. simpl in K. apply orb_false_iff in K.
  now apply is_empty_false.
Qed.

Lemma update_targets_existing_row_witness :
  let u := {| u_row := 3; u_order_number := "2002";
              u_tracking_number := "NEW"; u_date := "07-03-2026";
              u_tracking_link := "https://parcelsapp.com/en/tracking/NEW" |} in
  2 <= u_row u <= 3.
Proof.
  cbv zeta.
  refine (proj1 (update_targets_existing_row [Some "1001"; Some "#2002"]
                   "07-03-2026" [("9", "X"); ("2002", "NEW")] _ _)).
  simpl. now left.
Defined.

End ServiceLoop.

Section ServiceCall.

Import Pandas GoogleSheetsService Spec.

Lemma index_of_in (name : string) (cols : list string) :
  In name cols -> exists i, index_of name cols = Some i.
Proof.
  induction cols as [|c cols IH]; simpl; [tauto|].
  destruct (String.eqb_spec c name) as [->|N]; [eauto|].
  intros [E|I]; [contradiction|].
  destruct (IH I) as [i ->]. simpl. eauto.
Qed.

Lemma getitem_one (df : DataFrame) (name : string) :
  count_occ string_dec (columns df) name = 1 ->
  exists i, index_of name (columns df) = Some i
            /\ getitem df name = Ok (map (fun row => nth i row None) (rows df)).
Proof.
  intros H. unfold getitem. rewrite H.
  destruct (index_of_in name (columns df)) as [i E].
  { apply (count_occ_In string_dec). lia. }
  exists i. now rewrite E.
Qed.


(** What the write phase raises: the error of the batch of updates when
    there is a row to update, else the error of the append when there is a
    row to add. *)
Lemma commit_outcome_snd (e : env) (df : DataFrame) (st : loop_state) :
  snd (commit_outcome e df st)
  = match (if (length (rows_to_update st) =? 0)%nat then None
           else update_error e) with
    | Some x => Some x
    | None => if (length (rows_to_add st) =? 0)%nat then None
              else append_error e
    end.
Proof.
  unfold commit_outcome. cbv zeta.
  destruct (rows_to_update st) as [|u us];
    destruct (update_error e); destruct (rows_to_add st) as [|r rs];
    destruct (append_error e); reflexivity.
Qed.



Lemma update_requests_length (us : list update_row) :
  length (update_requests us) = 3 * length us.
Proof.
  unfold update_requests. induction us as [|u us IH]; simpl; [reflexivity|].
  rewrite IH. lia.
Qed.

(** X5. The writes of a call that returns. It returns the counters of
    the loop, and it has sent: one batch of three cell writes per updated
    order, first and only if an order is updated; then, only if an order
    is added, one append with one row per added order, followed by the
    checkbox rule over [added] rows from the zero-based row [len + 1]
    (end index [len + 1 + added], exclusive), [len] being the number of
    rows of the frame the call read. *)
Theorem bulk_update_orders_calls :
  forall (e : env) (pairs : list (string * string)) (df : DataFrame)
         (col : option (list cell)) (r : nat * nat * nat),
    _get_existing_data (read_response e) = Ok df ->
    order_column_of df = Ok col ->
    returned (bulk_update_orders e pairs) = Ok r ->
    let st := reconcile col (strftime_dmy (now e)) pairs in
    r = (added_count st, updated_count st, skipped_count st)
    /\ calls (bulk_update_orders e pairs)
       = ((if (updated_count st =? 0)%nat then []
           else [values_batchUpdate (update_requests (rows_to_update st))])
          ++ (if (added_count st =? 0)%nat then []
              else values_append (rows_to_add st)
                   :: match sheet_id e with
                      | None => []
                      | Some sid =>
                          [setDataValidation sid (len df + 1)
                             (len df + 1 + added_count st)]
                      end))%list
    /\ length (update_requests (rows_to_update st)) = 3 * updated_count st
    /\ length (rows_to_add st) = added_count st.
Proof.
  intros e pairs df col r H O. cbv zeta.
  pose proof (bulk_update_orders_returned e pairs df H) as R.
  rewrite O in R. cbv zeta in R. rewrite R. cbn [returned calls].
  destruct (snd (commit_outcome e df
                   (reconcile col (strftime_dmy (now e)) pairs))) eqn:W;
    [discriminate|].
  intros Hr. injection Hr as <-.
  rewrite (commit_outcome_none e df _ W).
  destruct (reconcile_closed_form col (strftime_dmy (now e)) pairs)
    as (_ & _ & NA & NU & _).
  rewrite update_requests_length, NA, NU.
  split; [reflexivity|]. split; [|split; reflexivity].
  unfold commit, _setup_checkbox_validation. cbv zeta.
  replace (len df + 1 + 1 - 1) with (len df + 1) by lia.
  destruct (rows_to_update (reconcile col (strftime_dmy (now e)) pairs));
    destruct (rows_to_add (reconcile col (strftime_dmy (now e)) pairs));
    cbn [length Nat.eqb app]; try reflexivity;
    destruct (sheet_id e); reflexivity.
Qed.

Lemma bulk_update_orders_calls_witness :
  let e := {| read_response :=
                ApiOk [["Order Number"; "Tracking Number"]; ["1001"; "OLD111"]];
              sheet_id := Some 7;
              now := {| year := 2026; month := 3; day := 7 |};
              update_error := None; append_error := None |} in
  calls (bulk_update_orders e [("1001", "N1"); ("2002", "N2"); ("3003", "N3")])
  = [values_batchUpdate
       [{| range_sheet := "Sheet1"; range_column := "B"; range_row := 2;
           cell_value := "N1" |};
        {| range_sheet := "Sheet1"; range_column := "C"; range_row := 2;
           cell_value := "07-03-2026" |};
        {| range_sheet := "Sheet1"; range_column := "D"; range_row := 2;
           cell_value := "https://parcelsapp.com/en/tracking/N1" |}];
     values_append
       [{| order_number := "2002"; tracking_number := "N2";
           date_added := "07-03-2026";
           tracking_link := "https://parcelsapp.com/en/tracking/N2";
           completed := false |};
        {| order_number := "3003"; tracking_number := "N3";
           date_added := "07-03-2026";
           tracking_link := "https://parcelsapp.com/en/tracking/N3";
           completed := false |}];
     setDataValidation 7 2 4].
Proof.
  cbv zeta.
  exact (proj1 (proj2 (bulk_update_orders_calls
                  {| read_response :=
                       ApiOk [["Order Number"; "Tracking Number"]; ["1001"; "OLD111"]];
                     sheet_id := Some 7;
                     now := {| year := 2026; month := 3; day := 7 |};
                     update_error := None; append_error := None |}
                  [("1001", "N1"); ("2002", "N2"); ("3003", "N3")]
                  _ _ (2, 1, 0) eq_refl eq_refl eq_refl))).
Defined.

(** X6. Different tracking numbers have different tracking links: the
    tracking number can be read back from the link. *)
Theorem tracking_link_injective :
  forall t1 t2 : string,
    _generate_tracking_link t1 = _generate_tracking_link t2 -> t1 = t2.
Proof.
  intros t1 t2. unfold _generate_tracking_link.
  destruct t1, t2; simpl; try discriminate; [reflexivity|].
  intros H. injection H as -> ->. reflexivity.
Qed.

Lemma tracking_link_injective_witness : "UK216203823YP" = "UK216203823YP".
Proof. exact (tracking_link_injective "UK216203823YP" "UK216203823YP" eq_refl). Defined.

End ServiceCall.

Section Frame.

Import Pandas GoogleSheetsService Spec.

Lemma pad_length (w : nat) (row : list string) :
  length row <= w -> length (pad w row) = w.
Proof.
  intros H. unfold pad. rewrite length_app, length_map, repeat_length. lia.
Qed.

Lemma pad_nth (w : nat) (row : list string) (i : nat) (s : string) :
  nth_error row i = Some s -> nth_error (pad w row) i = Some (Some s).
Proof.
  intros H. unfold pad.
  rewrite nth_error_app1 by (rewrite length_map; apply nth_error_Some; congruence).
  now rewrite nth_error_map, H.
Qed.

(** X7. The frame built from the sheet is rectangular: every row has one
    cell per column. When the longest data row is as wide as the header,
    the frame has one row per data row, in sheet order, and every cell
    the sheet returned is at its own place in it (cells a short row lacks
    being None), so that index j of the frame is row j + 2 of the sheet. *)
Theorem existing_frame_keeps_cells :
  forall (resp : api_response) (df : DataFrame),
    _get_existing_data resp = Ok df ->
    Forall (fun row => length row = length (columns df)) (rows df)
    /\ (forall (header : list string) (data : list (list string)),
           resp = ApiOk (header :: data) ->
           data <> [] ->
           list_max (map (@length string) data) = length header ->
           length (columns df) = length header
           /\ len df = length data
           /\ (forall j row i s,
                  nth_error data j = Some row -> nth_error row i = Some s ->
                  exists frow, nth_error (rows df) j = Some frow
                               /\ nth_error frow i = Some (Some s))).
Proof.
  intros resp df H.
  destruct resp as [[|header data]|x]; simpl in H.
  - injection H as <-. split; [constructor|]. discriminate.
  - destruct data as [|row0 data'] eqn:Ed.
    + simpl in H. injection H as <-. split; [constructor|].
      intros h d E N. injection E as <- <-. contradiction.
    + rewrite <- Ed in *. unfold DataFrame_of in H. rewrite Ed in H.
      rewrite <- Ed in H.
      destruct (Nat.eqb_spec (list_max (map (@length string) data)) (length header))
        as [W|W].
      * injection H as <-. unfold rename, len. cbn [columns rows].
        rewrite length_map.
        assert (B : Forall (fun row => length row <= list_max (map (@length string) data)) data).
        { pose proof (proj1 (list_max_le (map (@length string) data) _) (le_n _)) as F.
          rewrite Forall_map in F. exact F. }
        split.
        -- rewrite Forall_map. eapply Forall_impl; [|exact B].
           intros row Hr. cbv beta. rewrite pad_length by exact Hr. exact W.
        -- intros h d E N Wd. injection E as <- <-.
           split; [reflexivity|]. split; [now rewrite length_map|].
           intros j row i s Hj Hi.
           exists (pad (list_max (map (@length string) data)) row). split.
           ++ now rewrite nth_error_map, Hj.
           ++ now apply pad_nth.
      * injection H as <-. split; [constructor|].
        intros h d E N Wd. injection E as <- <-. contradiction.
  - injection H as <-. split; [constructor|]. discriminate.
Qed.

Lemma existing_frame_keeps_cells_witness :
  let resp := ApiOk [["Order Number"; "Tracking Number"; "Date Added"];
                     ["1001"; "T1"; "01-01-2026"]; ["1002"]] in
  exists df, _get_existing_data resp = Ok df
             /\ Forall (fun row => length row = length (columns df)) (rows df).
Proof.
  cbv zeta. eexists. split; [reflexivity|].
  match goal with
  | |- Forall _ (rows ?d) =>
      exact (proj1 (existing_frame_keeps_cells
                      (ApiOk [["Order Number"; "Tracking Number"; "Date Added"];
                              ["1001"; "T1"; "01-01-2026"]; ["1002"]])
                      d eq_refl))
  end.
Defined.

End Frame.

(** ** The append of the upload path and the duplicate check *)

Section AppendOrders.

Import Pandas GoogleSheetsService Spec.

Lemma new_rows_in (today : string) (order_data : list (PyDict.dict string))
  (r : LedgerRow) :
  In r (new_rows today order_data) <->
  exists order, In order order_data
                /\ get_default "order_number" order <> ""
                /\ r = {| order_number := get_default "order_number" order;
                          tracking_number := get_default "tracking_number" order;
                          date_added := today;
                          tracking_link :=
                            _generate_tracking_link
                              (get_default "tracking_number" order);
                          completed := false |}.
Proof.
  unfold new_rows. rewrite in_flat_map. split.
  - intros (order & I & H). exists order. split; [exact I|].
    unfold new_row in H.
    destruct (PyStr.is_empty (get_default "order_number" order)) eqn:E;
      [contradiction|].
    destruct H as [<-|[]]. split; [now apply is_empty_false | reflexivity].
  - intros (order & I & N & ->). exists order. split; [exact I|].
    unfold new_row. apply is_empty_false in N. rewrite N. now left.
Qed.

Lemma isin_spec (targets : list cell) (s : string) :
  isin targets s = true <-> In (Some s) targets.
Proof.
  unfold isin. rewrite existsb_exists. split.
  - intros ([v|] & I & E); [|discriminate].
    apply String.eqb_eq in E. now subst.
  - intros I. exists (Some s). split; [exact I | apply String.eqb_refl].
Qed.

(** What [append_order_data] does once the frame is read, in terms of
    the rows left by the duplicate filter. *)
Lemma append_order_data_unfold (e : env) (order_data : list (PyDict.dict string))
  (df : DataFrame) :
  _get_existing_data (read_response e) = Ok df ->
  order_data <> [] ->
  new_rows (strftime_dmy (now e)) order_data <> [] ->
  append_order_data e order_data =
  match remove_existing df (new_rows (strftime_dmy (now e)) order_data) with
  | Raise x => {| append_calls := []; append_returned := Raise (wrap_append x) |}
  | Ok [] => {| append_calls := []; append_returned := Ok true |}
  | Ok values =>
      match append_error e with
      | Some x =>
          {| append_calls := [values_append values];
             append_returned := Raise (wrap_append x) |}
      | None =>
          {| append_calls :=
               values_append values
               :: _setup_checkbox_validation e (len df + 1 + 1)
                    (len df + 1 + length values);
             append_returned := Ok true |}
      end
  end.
Proof.
  intros H N1 N2. unfold append_order_data. rewrite H.
  destruct order_data as [|o od]; [contradiction|].
  destruct (new_rows (strftime_dmy (now e)) (o :: od)) as [|r rs] eqn:E;
    [contradiction|].
  destruct (remove_existing df (r :: rs)) as [[|v vs]|x]; reflexivity.
Qed.

(** X8. Every row [append_order_data] sends in an append comes from an
    order of the batch with a non-empty order number, carries today's
    date, the link of its tracking number and an unchecked box, and its
    order number is not, as it stands, a value of the existing
    order-number column. An append is never empty. The call that sent it
    returns True when the store accepts the append, and raises the
    store's error, wrapped, when the store refuses it. *)
Theorem appended_rows_are_new :
  forall (e : env) (order_data : list (PyDict.dict string)) (df : DataFrame)
         (values : list LedgerRow),
    _get_existing_data (read_response e) = Ok df ->
    In (values_append values) (append_calls (append_order_data e order_data)) ->
    values <> []
    /\ append_returned (append_order_data e order_data)
       = match append_error e with
         | Some x =>
             Raise (Wrapped "Failed to append data to Google Sheet: " x)
         | None => Ok true
         end
    /\ Forall (fun r =>
                 order_number r <> ""
                 /\ date_added r = strftime_dmy (now e)
                 /\ tracking_link r = _generate_tracking_link (tracking_number r)
                 /\ completed r = false
                 /\ exists order,
                      In order order_data
                      /\ order_number r = get_default "order_number" order
                      /\ tracking_number r = get_default "tracking_number" order)
         values
    /\ (empty df = false ->
        forall targets, isin_targets df = Ok targets ->
          Forall (fun r => ~ In (Some (order_number r)) targets) values).
Proof.
  intros e order_data df values H I.
  destruct order_data as [|o od] eqn:Eo; [simpl in I; contradiction|].
  rewrite <- Eo in *.
  destruct (new_rows (strftime_dmy (now e)) order_data) as [|r0 rs0] eqn:En.
  { unfold append_order_data in I. rewrite H, Eo in I. rewrite <- Eo in I.
    rewrite En in I. simpl in I. contradiction. }
  assert (N1 : order_data <> []) by (rewrite Eo; discriminate).
  assert (N2 : new_rows (strftime_dmy (now e)) order_data <> [])
    by (rewrite En; discriminate).
  rewrite (append_order_data_unfold e order_data df H N1 N2) in *.
  clear En N2.
  destruct (remove_existing df (new_rows (strftime_dmy (now e)) order_data))
    as [[|v vs]|x] eqn:R; simpl in I; try contradiction.
  assert (I' : values = v :: vs).
  { destruct (append_error e); simpl in I.
    - destruct I as [I|[]]. now injection I.
    - destruct I as [I|I]; [now injection I|].
      unfold _setup_checkbox_validation in I.
      destruct (sheet_id e); simpl in I;
        [destruct I as [I|[]]; discriminate | contradiction]. }
  clear I. subst values.
  split; [discriminate|].
  split; [destruct (append_error e); reflexivity|].
  assert (Sub : forall r, In r (v :: vs) ->
                  In r (new_rows (strftime_dmy (now e)) order_data)
                  /\ (empty df = false -> forall targets,
                        isin_targets df = Ok targets ->
                        ~ In (Some (order_number r)) targets)).
  { intros r Hr. unfold remove_existing in R.
    destruct (empty df) eqn:E.
    - injection R as R. rewrite R. split; [exact Hr | discriminate].
    - destruct (isin_targets df) as [targets|x]; [|discriminate].
      injection R as R. rewrite <- R in Hr. apply filter_In in Hr.
      destruct Hr as [Hr Hn]. split; [exact Hr|].
      intros _ t Et. injection Et as <-. intros C.
      apply isin_spec in C. rewrite C in Hn. discriminate. }
  split.
  - apply Forall_forall. intros r Hr. destruct (Sub r Hr) as [Hn _].
    apply new_rows_in in Hn. destruct Hn as (order & Io & Ne & ->).
    cbn. repeat split; try assumption. now exists order.
  - intros E targets Et. apply Forall_forall. intros r Hr.
    destruct (Sub r Hr) as [_ Hn]. now apply Hn.
Qed.

Lemma appended_rows_are_new_witness :
  let e := {| read_response :=
                ApiOk [["Order Number"; "Tracking Number"]; ["1001"; "OLD111"]];
              sheet_id := Some 0;
              now := {| year := 2026; month := 3; day := 7 |};
              update_error := None; append_error := None |} in
  let order_data :=
    [[("order_number", "1001"); ("tracking_number", "T1")];
     [("order_number", ""); ("tracking_number", "T0")];
     [("order_number", "2002"); ("tracking_number", "T2")]] in
  let row := {| order_number := "2002"; tracking_number := "T2";
                date_added := "07-03-2026";
                tracking_link := "https://parcelsapp.com/en/tracking/T2";
                completed := false |} in
  append_calls (append_order_data e order_data)
  = [values_append [row]; setDataValidation 0 2 3]
  /\ append_returned (append_order_data e order_data) = Ok true.
Proof.
  cbv zeta. split; [reflexivity|].
  refine (proj1 (proj2 (appended_rows_are_new
                   {| read_response :=
                        ApiOk [["Order Number"; "Tracking Number"]; ["1001"; "OLD111"]];
                      sheet_id := Some 0;
                      now := {| year := 2026; month := 3; day := 7 |};
                      update_error := None; append_error := None |}
                   [[("order_number", "1001"); ("tracking_number", "T1")];
                    [("order_number", ""); ("tracking_number", "T0")];
                    [("order_number", "2002"); ("tracking_number", "T2")]]
                   _
                   [{| order_number := "2002"; tracking_number := "T2";
                       date_added := "07-03-2026";
                       tracking_link := "https://parcelsapp.com/en/tracking/T2";
                       completed := false |}]
                   eq_refl _))).
  vm_compute. now left.
Defined.

End AppendOrders.

Section DuplicateCheck.

Import Pandas GoogleSheetsService Spec.

Lemma append_calls_spec (e : env) (order_data : list (PyDict.dict string))
  (df : DataFrame) (values : list LedgerRow) :
  _get_existing_data (read_response e) = Ok df ->
  (In (values_append values) (append_calls (append_order_data e order_data))
   <-> values <> []
       /\ remove_existing df (new_rows (strftime_dmy (now e)) order_data)
          = Ok values).
Proof.
  intros H.
  assert (V : forall s en, ~ In (values_append values)
                             (_setup_checkbox_validation e s en)).
  { intros s en I. unfold _setup_checkbox_validation in I.
    destruct (sheet_id e); simpl in I; [destruct I as [I|[]]; discriminate | exact I]. }
  destruct (new_rows (strftime_dmy (now e)) order_data) as [|r0 rs0] eqn:En.
  - assert (A : append_calls (append_order_data e order_data) = []).
    { unfold append_order_data. rewrite H. destruct order_data; [reflexivity|].
      now rewrite En. }
    rewrite A. split; [intros []|]. intros [N R].
    unfold remove_existing in R. destruct (empty df).
    + injection R as <-. contradiction.
    + destruct (isin_targets df); [|discriminate]. injection R as <-.
      contradiction.
  - assert (N1 : order_data <> []) by (intros ->; discriminate).
    assert (N2 : new_rows (strftime_dmy (now e)) order_data <> [])
      by (rewrite En; discriminate).
    rewrite (append_order_data_unfold e order_data df H N1 N2), En.
    destruct (remove_existing df (r0 :: rs0)) as [[|v vs]|x]; simpl.
    + split; [intros [] | intros [N R]; injection R as <-; contradiction].
    + split.
      * intros I.
        assert (I' : values_append values = values_append (v :: vs)).
        { destruct (append_error e); simpl in I.
          - destruct I as [I|[]]. now symmetry.
          - destruct I as [I|I]; [now symmetry | now apply V in I]. }
        injection I' as ->. split; [discriminate | reflexivity].
      * intros [_ R]. injection R as <-.
        destruct (append_error e); now left.
    + split; [intros [] | intros [_ R]; discriminate].
Qed.

Lemma isin_targets_getitem (df : DataFrame) (col : list cell) :
  getitem df "order_number" = Ok col -> isin_targets df = Ok col.
Proof.
  unfold getitem, isin_targets.
  destruct (count_occ string_dec (columns df) "order_number") as [|[|n]];
    [discriminate | | now destruct (index_of "order_number" (columns df))].
  destruct (index_of "order_number" (columns df)); [tauto | discriminate].
Qed.

(** X9. When the frame has rows and every order of the batch either has
    no order number or has one that is already a value of the existing
    order-number column, [append_order_data] issues no write and returns
    True. *)
Theorem append_of_known_orders_writes_nothing :
  forall (e : env) (order_data : list (PyDict.dict string)) (df : DataFrame)
         (targets : list cell),
    _get_existing_data (read_response e) = Ok df ->
    empty df = false ->
    isin_targets df = Ok targets ->
    (forall order, In order order_data ->
       get_default "order_number" order = ""
       \/ In (Some (get_default "order_number" order)) targets) ->
    append_order_data e order_data
    = {| append_calls := []; append_returned := Ok true |}.
Proof.
  intros e order_data df targets H E T A.
  destruct order_data as [|o od] eqn:Eo; [reflexivity|]. rewrite <- Eo in *.
  destruct (new_rows (strftime_dmy (now e)) order_data) as [|r0 rs0] eqn:En.
  { unfold append_order_data. now rewrite H, Eo, <- Eo, En. }
  assert (N1 : order_data <> []) by (rewrite Eo; discriminate).
  assert (N2 : new_rows (strftime_dmy (now e)) order_data <> [])
    by (rewrite En; discriminate).
  rewrite (append_order_data_unfold e order_data df H N1 N2).
  unfold remove_existing. rewrite E, T.
  assert (F : filter (fun r => negb (isin targets (order_number r)))
                (new_rows (strftime_dmy (now e)) order_data) = []).
  { clear - A. set (rows := new_rows _ _).
    assert (P : forall r, In r rows -> isin targets (order_number r) = true).
    { intros r Hr. apply new_rows_in in Hr. destruct Hr as (order & I & N & ->).
      cbn. apply isin_spec. destruct (A order I); [contradiction | assumption]. }
    induction rows as [|r rows IH]; simpl; [reflexivity|].
    rewrite (P r (or_introl eq_refl)). simpl. apply IH.
    intros r' Hr'. apply P. now right. }
  now rewrite F.
Qed.

Lemma append_of_known_orders_writes_nothing_witness :
  let e := {| read_response :=
                ApiOk [["Order Number"; "Tracking Number"];
                       ["1001"; "OLD111"]; ["2002"; "OLD222"]];
              sheet_id := Some 0;
              now := {| year := 2026; month := 3; day := 7 |};
              update_error := None; append_error := None |} in
  append_order_data e [[("order_number", "2002"); ("tracking_number", "N2")];
                       [("tracking_number", "N0")];
                       [("order_number", "1001"); ("tracking_number", "N1")]]
  = {| append_calls := []; append_returned := Ok true |}.
Proof.
  cbv zeta.
  refine (append_of_known_orders_writes_nothing
            {| read_response :=
                 ApiOk [["Order Number"; "Tracking Number"];
                        ["1001"; "OLD111"]; ["2002"; "OLD222"]];
               sheet_id := Some 0;
               now := {| year := 2026; month := 3; day := 7 |};
               update_error := None; append_error := None |}
            [[("order_number", "2002"); ("tracking_number", "N2")];
             [("tracking_number", "N0")];
             [("order_number", "1001"); ("tracking_number", "N1")]]
            {| columns := ["order_number"; "tracking_number"];
               rows := [[Some "1001"; Some "OLD111"]; [Some "2002"; Some "OLD222"]] |}
            [Some "1001"; Some "2002"] _ _ _ _);
    try reflexivity.
  intros order [<-|[<-|[<-|[]]]]; vm_compute; auto.
Defined.

Lemma existsb_astype (col : list cell) (n : string) :
  Forall (fun c => c <> None) col ->
  existsb (String.eqb n) (map astype_str col) = isin col n.
Proof.
  unfold isin. induction col as [|c col IH]; intros F; simpl; [reflexivity|].
  inversion F as [|? ? Hc Hr]; subst. rewrite (IH Hr).
  destruct c as [v|]; [|contradiction]. simpl. now rewrite String.eqb_sym.
Qed.

(** X10. On a frame with rows, one order-number column and no missing
    cell in it, the duplicate check and the append agree: an order of the
    batch with a non-empty order number is reported by
    [check_for_duplicate_orders] exactly when [append_order_data] does not
    append it. *)
Theorem duplicate_check_agrees_with_append :
  forall (e : env) (order_data : list (PyDict.dict string)) (df : DataFrame)
         (col : list cell),
    _get_existing_data (read_response e) = Ok df ->
    empty df = false ->
    getitem df "order_number" = Ok col ->
    Forall (fun c => c <> None) col ->
    exists dups,
      check_for_duplicate_orders e (map (get_default "order_number") order_data)
      = Ok dups
      /\ forall n,
           In n (map (get_default "order_number") order_data) -> n <> "" ->
           (In n dups <->
            forall values,
              In (values_append values)
                 (append_calls (append_order_data e order_data)) ->
              ~ In n (map order_number values)).
Proof.
  intros e order_data df col H E G F.
  unfold check_for_duplicate_orders. rewrite H, E, G.
  eexists. split; [reflexivity|].
  intros n Hn Ne. rewrite filter_In.
  pose proof (isin_targets_getitem df col G) as T.
  assert (R : remove_existing df (new_rows (strftime_dmy (now e)) order_data)
              = Ok (filter (fun r => negb (isin col (order_number r)))
                      (new_rows (strftime_dmy (now e)) order_data))).
  { unfold remove_existing. now rewrite E, T. }
  rewrite (existsb_astype col n F). split.
  - intros [_ I] values Hv Hin.
    apply (append_calls_spec e order_data df values H) in Hv.
    destruct Hv as [_ Hv]. rewrite R in Hv. injection Hv as <-.
    apply in_map_iff in Hin. destruct Hin as (r & <- & Hr).
    apply filter_In in Hr. destruct Hr as [_ Hr]. rewrite I in Hr. discriminate.
  - intros A. split; [exact Hn|].
    destruct (isin col n) eqn:I; [reflexivity|]. exfalso.
    apply in_map_iff in Hn. destruct Hn as (order & <- & Ho).
    set (r := {| order_number := get_default "order_number" order;
                 tracking_number := get_default "tracking_number" order;
                 date_added := strftime_dmy (now e);
                 tracking_link :=
                   _generate_tracking_link (get_default "tracking_number" order);
                 completed := false |}).
    assert (Hr : In r (filter (fun r => negb (isin col (order_number r)))
                         (new_rows (strftime_dmy (now e)) order_data))).
    { apply filter_In. split.
      - apply new_rows_in. now exists order.
      - cbn. now rewrite I. }
    apply (A (filter (fun r => negb (isin col (order_number r)))
                (new_rows (strftime_dmy (now e)) order_data))).
    + apply (append_calls_spec e order_data df _ H). split; [|exact R].
      intros C. rewrite C in Hr. contradiction.
    + apply in_map_iff. now exists r.
Qed.

Lemma duplicate_check_agrees_with_append_witness :
  let e := {| read_response :=
                ApiOk [["Order Number"; "Tracking Number"]; ["1001"; "OLD111"]];
              sheet_id := Some 0;
              now := {| year := 2026; month := 3; day := 7 |};
              update_error := None; append_error := None |} in
  exists dups,
    check_for_duplicate_orders e ["1001"; "2002"] = Ok dups.
Proof.
  cbv zeta.
  destruct (duplicate_check_agrees_with_append
              {| read_response :=
                   ApiOk [["Order Number"; "Tracking Number"]; ["1001"; "OLD111"]];
                 sheet_id := Some 0;
                 now := {| year := 2026; month := 3; day := 7 |};
                 update_error := None; append_error := None |}
              [[("order_number", "1001"); ("tracking_number", "T1")];
               [("order_number", "2002"); ("tracking_number", "T2")]]
              {| columns := ["order_number"; "tracking_number"];
                 rows := [[Some "1001"; Some "OLD111"]] |}
              [Some "1001"] eq_refl eq_refl eq_refl
              ltac:(repeat constructor; discriminate)) as (dups & D & _).
  exists dups. exact D.
Defined.

(** X11. When the read of the sheet fails, the duplicate check reports
    no duplicate and the append sends every order that has an order
    number, whether or not the sheet already holds it. The append call
    then returns True, after setting the checkbox rule, when the store
    accepts the append; when the store refuses it, the call raises the
    store's error, wrapped, and sets no rule. *)
Theorem failed_read_hides_duplicates :
  forall (x : exn) (sid : option nat) (d : datetime) (ue ae : option exn)
         (order_data : list (PyDict.dict string)) (order_numbers : list string),
    let e := {| read_response := ApiError x; sheet_id := sid; now := d;
                update_error := ue; append_error := ae |} in
    check_for_duplicate_orders e order_numbers = Ok []
    /\ append_order_data e order_data
       = match new_rows (strftime_dmy d) order_data, ae with
         | [], _ => {| append_calls := []; append_returned := Ok true |}
         | rows, Some y =>
             {| append_calls := [values_append rows];
                append_returned :=
                  Raise (Wrapped "Failed to append data to Google Sheet: " y) |}
         | rows, None =>
             {| append_calls :=
                  values_append rows
                  :: _setup_checkbox_validation e 2 (1 + length rows);
                append_returned := Ok true |}
         end.
Proof.
  intros x sid d ue ae order_data order_numbers. cbv zeta.
  split; [reflexivity|].
  unfold append_order_data.
  cbn [read_response _get_existing_data now append_error].
  destruct order_data as [|o od]; [destruct ae; reflexivity|].
  destruct (new_rows (strftime_dmy d) (o :: od)); destruct ae; reflexivity.
Qed.

End DuplicateCheck.

(** * Properties of the workbook reader *)

Section Columns.

Import PyStr ExcelService.

Lemma existsb_eqb_in (c : string) (names : list string) :
  existsb (String.eqb c) names = true <-> In c names.
Proof.
  rewrite existsb_exists. split.
  - intros (x & I & E). apply String.eqb_eq in E. now subst.
  - intros I. exists c. split; [exact I | apply String.eqb_refl].
Qed.

Lemma exact_match_some (columns names : list string) (c : string) :
  exact_match columns names = Some c -> In c columns /\ In c names.
Proof.
  induction columns as [|col rest IH]; simpl; [discriminate|].
  destruct (existsb (String.eqb col) names) eqn:E.
  - intros H. injection H as <-. split; [now left | now apply existsb_eqb_in].
  - intros H. destruct (IH H). split; [now right | assumption].
Qed.

Lemma exact_match_none (columns names : list string) :
  exact_match columns names = None <->
  forall c, In c columns -> ~ In c names.
Proof.
  induction columns as [|col rest IH]; simpl.
  - split; [intros _ c [] | reflexivity].
  - destruct (existsb (String.eqb col) names) eqn:E.
    + split; [discriminate|]. intros H. exfalso.
      apply (H col (or_introl eq_refl)). now apply existsb_eqb_in.
    + rewrite IH. split.
      * intros H c [<-|I]; [|now apply H].
        intros C. apply existsb_eqb_in in C. congruence.
      * intros H c I. apply H. now right.
Qed.

Lemma column_with_lower_some (name : string) (columns : list string) (c : string) :
  column_with_lower name columns = Some c -> In c columns /\ lower c = name.
Proof.
  induction columns as [|col rest IH]; simpl; [discriminate|].
  destruct (String.eqb_spec (lower col) name) as [E|N].
  - intros H. injection H as <-. split; [now left | exact E].
  - intros H. destruct (IH H). split; [now right | assumption].
Qed.

Lemma column_with_lower_none (name : string) (columns : list string) :
  column_with_lower name columns = None <->
  forall c, In c columns -> lower c <> name.
Proof.
  induction columns as [|col rest IH]; simpl.
  - split; [intros _ c [] | reflexivity].
  - destruct (String.eqb_spec (lower col) name) as [E|N].
    + split; [discriminate|]. intros H. exfalso.
      now apply (H col (or_introl eq_refl)).
    + rewrite IH. split.
      * intros H c [<-|I]; [exact N | now apply H].
      * intros H c I. apply H. now right.
Qed.

Lemma lower_match_some (names columns : list string) (c : string) :
  lower_match names columns = Some c ->
  In c columns /\ In (lower c) (map lower names).
Proof.
  induction names as [|name rest IH]; simpl; [discriminate|].
  destruct (column_with_lower (lower name) columns) as [col|] eqn:E.
  - intros H. injection H as <-.
    destruct (column_with_lower_some _ _ _ E) as [I L].
    split; [exact I | now left].
  - intros H. destruct (IH H). split; [assumption | now right].
Qed.

Lemma lower_match_none (names columns : list string) :
  lower_match names columns = None <->
  forall c, In c columns -> ~ In (lower c) (map lower names).
Proof.
  induction names as [|name rest IH]; simpl.
  - split; [intros _ c _ [] | reflexivity].
  - destruct (column_with_lower (lower name) columns) as [col|] eqn:E.
    + split; [discriminate|]. intros H. exfalso.
      destruct (column_with_lower_some _ _ _ E) as [I L].
      apply (H col I). now left.
    + rewrite IH. rewrite column_with_lower_none in E. split.
      * intros H c I [C|C]; [now apply (E c I) | now apply (H c I)].
      * intros H c I C. apply (H c I). now right.
Qed.

(** X12. For a kind of column that the table knows, [find_matching_column]
    returns a label of the workbook that equals one of the names of the
    kind when case is ignored; it returns a label that is literally one of
    the names whenever the workbook has one; and it finds nothing exactly
    when no label equals a name even with case ignored. For any other kind
    it raises a KeyError. *)
Theorem find_matching_column_spec :
  forall (columns : list string) (target_type : string),
    (forall names, PyDict.get target_type column_mappings = Some names ->
       (forall c, find_matching_column columns target_type = Ok (Some c) ->
                  In c columns /\ In (lower c) (map lower names))
       /\ (forall c, In c columns -> In c names ->
             exists c', find_matching_column columns target_type = Ok (Some c')
                        /\ In c' columns /\ In c' names)
       /\ (find_matching_column columns target_type = Ok None <->
           forall c, In c columns -> ~ In (lower c) (map lower names)))
    /\ (PyDict.get target_type column_mappings = None ->
        find_matching_column columns target_type = Raise (KeyError target_type)).
Proof.
  intros columns target_type. split.
  - intros names G. unfold find_matching_column. rewrite G.
    split; [|split].
    + intros c H. destruct (exact_match columns names) as [col|] eqn:E.
      * injection H as <-. destruct (exact_match_some _ _ _ E) as [I N].
        split; [exact I | now apply in_map].
      * injection H as H. now apply lower_match_some.
    + intros c I N. destruct (exact_match columns names) as [col|] eqn:E.
      * exists col. split; [reflexivity|]. now apply exact_match_some.
      * exfalso. rewrite exact_match_none in E. now apply (E c I).
    + destruct (exact_match columns names) as [col|] eqn:E.
      * split; [discriminate|]. intros H. exfalso.
        destruct (exact_match_some _ _ _ E) as [I N].
        apply (H col I). now apply in_map.
      * rewrite <- lower_match_none. split; [intros H; now injection H | now intros ->].
  - intros G. unfold find_matching_column. now rewrite G.
Qed.

Lemma find_matching_column_spec_witness :
  find_matching_column ["Order #"; "Customer"; "TRACKING"] "order-number"
  = Ok (Some "Order #")
  /\ find_matching_column ["Order #"; "Customer"; "TRACKING"] "customer"
     = Raise (KeyError "customer").
Proof.
  split.
  - reflexivity.
  - exact (proj2 (find_matching_column_spec ["Order #"; "Customer"; "TRACKING"]
                    "customer") eq_refl).
Defined.

End Columns.

Section Validation.

Import PyStr ExcelService.

Lemma find_known (columns : list string) (target_type : string)
  (names : list string) :
  PyDict.get target_type column_mappings = Some names ->
  ~ In "" (map lower names) ->
  exists r, find_matching_column columns target_type = Ok r
            /\ (forall c, r = Some c ->
                  c <> "" /\ In c columns /\ In (lower c) (map lower names))
            /\ (r = None ->
                forall c, In c columns -> ~ In (lower c) (map lower names)).
Proof.
  intros G E. unfold find_matching_column. rewrite G.
  destruct (exact_match columns names) as [col|] eqn:X.
  - exists (Some col). split; [reflexivity|]. split; [|discriminate].
    intros c H. injection H as <-.
    destruct (exact_match_some _ _ _ X) as [I N].
    assert (L : In (lower col) (map lower names)) by now apply in_map.
    split; [|split; assumption]. intros ->. now apply E.
  - exists (lower_match names columns). split; [reflexivity|]. split.
    + intros c H. destruct (lower_match_some _ _ _ H) as [I L].
      split; [|split; assumption]. intros ->. now apply E.
    + intros H. now apply lower_match_none.
Qed.

(** The two outcomes of the validation of a workbook that was read. *)
Lemma validate_cases (df : workbook) :
  (exists oc tc,
      validate_excel_file (Ok df)
      = (true, Text "", [("order-number", oc); ("tracking", tc)])
      /\ In oc (wb_columns df) /\ In tc (wb_columns df)
      /\ In (lower oc) ["order-number"; "order #"; "order #"; "order_number"]
      /\ In (lower tc) ["tracking"; "tracking number"; "tracking number"; "tracking"])
  \/ (exists m,
         validate_excel_file (Ok df) = (false, m, [])
         /\ message_empty m = false
         /\ ((forall c, In c (wb_columns df) ->
                ~ In (lower c) ["order-number"; "order #"; "order #"; "order_number"])
             \/ (forall c, In c (wb_columns df) ->
                   ~ In (lower c)
                       ["tracking"; "tracking number"; "tracking number"; "tracking"]))).
Proof.
  destruct (find_known (wb_columns df) "order-number" _ eq_refl)
    as (r1 & F1 & S1 & N1).
  { simpl. intros [H|[H|[H|[H|[]]]]]; discriminate. }
  destruct (find_known (wb_columns df) "tracking" _ eq_refl)
    as (r2 & F2 & S2 & N2).
  { simpl. intros [H|[H|[H|[H|[]]]]]; discriminate. }
  unfold validate_excel_file. rewrite F1, F2.
  destruct r1 as [oc|].
  - destruct (S1 oc eq_refl) as (E1 & I1 & L1).
    destruct oc as [|a1 s1]; [contradiction|].
    destruct r2 as [tc|].
    + destruct (S2 tc eq_refl) as (E2 & I2 & L2).
      destruct tc as [|a2 s2]; [contradiction|].
      left. exists (String a1 s1), (String a2 s2). repeat split; assumption.
    + right. eexists. split; [reflexivity|]. split; [reflexivity|].
      right. now apply N2.
  - right. destruct r2 as [[|a2 s2]|];
      (eexists; split; [reflexivity|]; split; [reflexivity|]; left; now apply N1).
Qed.

(** X13. A workbook that was read passes the validation exactly when
    some label equals an order-number name and some label equals a
    tracking name, case ignored. The mapping then names two labels of the
    workbook, and they are different columns. Otherwise the mapping is
    empty and the message is not. *)
Theorem validation_picks_two_columns :
  forall df : workbook,
    (exists oc tc,
        validate_excel_file (Ok df)
        = (true, Text "", [("order-number", oc); ("tracking", tc)])
        /\ In oc (wb_columns df) /\ In tc (wb_columns df) /\ oc <> tc
        /\ In (lower oc) ["order-number"; "order #"; "order_number"]
        /\ In (lower tc) ["tracking"; "tracking number"])
    \/ (exists m,
           validate_excel_file (Ok df) = (false, m, [])
           /\ message_empty m = false
           /\ ((forall c, In c (wb_columns df) ->
                  ~ In (lower c) ["order-number"; "order #"; "order_number"])
               \/ (forall c, In c (wb_columns df) ->
                     ~ In (lower c) ["tracking"; "tracking number"]))).
Proof.
  intros df. destruct (validate_cases df) as [(oc & tc & V & I1 & I2 & L1 & L2)
                                            | (m & V & M & N)].
  - left. exists oc, tc. split; [exact V|]. split; [exact I1|]. split; [exact I2|].
    split; [|split].
    + intros ->. simpl in L1, L2.
      destruct L1 as [H|[H|[H|[H|[]]]]]; rewrite <- H in L2;
        destruct L2 as [K|[K|[K|[K|[]]]]]; discriminate.
    + simpl in *. tauto.
    + simpl in *. tauto.
  - right. exists m. split; [exact V|]. split; [exact M|].
    destruct N as [N|N]; [left | right]; intros c I C; apply (N c I);
      simpl in *; tauto.
Qed.

Lemma validation_picks_two_columns_witness :
  exists oc tc,
    validate_excel_file
      (Ok {| wb_columns := ["Customer"; "Order #"; "TRACKING"]; wb_rows := [] |})
    = (true, Text "", [("order-number", oc); ("tracking", tc)])
    /\ oc <> tc.
Proof.
  destruct (validation_picks_two_columns
              {| wb_columns := ["Customer"; "Order #"; "TRACKING"]; wb_rows := [] |})
    as [(oc & tc & V & _ & _ & N & _) | (m & V & _)].
  - exists oc, tc. split; assumption.
  - vm_compute in V. discriminate.
Defined.

End Validation.

Section Workbook.

Import PyStr PyDict ExcelService Spec.

Lemma setitem_length {V : Type} (k : string) (v : V) (d : dict V) :
  length (setitem k v d) = if mem k d then length d else S (length d).
Proof.
  unfold mem. induction d as [|[k' v'] d IH]; simpl; [reflexivity|].
  destruct (String.eqb k' k); simpl; [reflexivity|].
  rewrite IH. now destruct (get k d).
Qed.

(** One row is either counted as blank, counted as duplicate, or adds
    an entry. *)
Lemma excel_loop_body_measure (st : loop_state) (row : option string * option string) :
  let m s := empty_order_count s + empty_tracking_count s + duplicate_count s
             + length (order_data_dict s) in
  m (loop_body st row) = m st + 1.
Proof.
  cbv zeta. unfold loop_body.
  destruct (is_empty (clean_value (fst row))); [simpl; lia|].
  destruct (is_empty (clean_value (snd row))); [simpl; lia|].
  cbv zeta. cbn [empty_order_count empty_tracking_count duplicate_count
                 order_data_dict].
  rewrite setitem_length.
  match goal with
  | |- context [mem ?k ?d] => destruct (mem k d)
  end; lia.
Qed.

(** X14. Every row of the workbook is accounted for once: the rows with
    a blank order number, the rows with a blank tracking number, the rows
    counted as duplicates and the entries returned add up to the number
    of rows read. *)
Theorem workbook_rows_accounted_for :
  forall rows : list (option string * option string),
    let st := process_rows rows in
    empty_order_count st + empty_tracking_count st + duplicate_count st
    + length (order_data rows) = length rows
    /\ skipped_count rows + duplicate_count st + length (order_data rows)
       = length rows.
Proof.
  intros rows. cbv zeta. unfold order_data, skipped_count, values.
  rewrite length_map.
  assert (G : forall st,
             let m s := empty_order_count s + empty_tracking_count s
                        + duplicate_count s + length (order_data_dict s) in
             m (fold_left loop_body rows st) = m st + length rows).
  { induction rows as [|row rows IH]; intros st; cbv beta zeta in *;
      cbn [fold_left length]; [lia|].
    rewrite IH. pose proof (excel_loop_body_measure st row) as M.
    cbv beta zeta in M. lia. }
  specialize (G initial_state). cbv beta zeta in G.
  cbn [initial_state empty_order_count empty_tracking_count duplicate_count
       order_data_dict length] in G.
  unfold process_rows. lia.
Qed.

Lemma setitem_info (k t : string) (d : dict string) :
  setitem k (info_of (k, t)) (map (fun p => (fst p, info_of p)) d)
  = map (fun p => (fst p, info_of p)) (setitem k t d).
Proof.
  induction d as [|[k' t'] d IH]; simpl; [reflexivity|].
  destruct (String.eqb_spec k' k) as [->|N]; simpl; [reflexivity|].
  now rewrite IH.
Qed.

Lemma excel_loop_body_pairs (st : loop_state) (d : dict string)
  (row : option string * option string) :
  order_data_dict st = map (fun p => (fst p, info_of p)) d ->
  order_data_dict (loop_body st row)
  = map (fun p => (fst p, info_of p))
      (fold_left (fun d p => setitem (fst p) (snd p) d) (excel_pair row) d).
Proof.
  intros H. unfold loop_body, excel_pair.
  destruct (is_empty (clean_value (fst row))); [exact H|].
  destruct (is_empty (clean_value (snd row))); [exact H|].
  cbn. rewrite H. apply setitem_info.
Qed.

Lemma lstrip_fixed_head (c : ascii) (r : string) :
  isspace c = false -> lstrip (String c r) = String c r.
Proof. intros H. simpl. now rewrite H. Qed.

Lemma strip_idem (s : string) : strip (strip s) = strip s.
Proof.
  destruct (strip s) as [|c r] eqn:E; [reflexivity|].
  pose proof (strip_head s c r E) as Hc.
  unfold strip at 1. rewrite (lstrip_fixed_head c r Hc).
  rewrite <- E. apply strip_idem_r.
Qed.

(** X15. The loop of [process_excel_file] removes duplicates as the bulk
    form does: its entries are the result of [final_pairs] on the cleaned
    pairs of the rows that have both cells. No two entries have the same
    order number, and every entry has a non-empty tracking number without
    surrounding blanks. *)
Theorem workbook_entries_are_final_pairs :
  forall rows : list (option string * option string),
    order_data rows = map info_of (App.final_pairs (excel_pairs rows))
    /\ NoDup (map order_number (order_data rows))
    /\ Forall (fun o => tracking_number o <> ""
                        /\ strip (tracking_number o) = tracking_number o)
         (order_data rows).
Proof.
  intros rows.
  assert (G : forall st d,
             order_data_dict st = map (fun p => (fst p, info_of p)) d ->
             order_data_dict (fold_left loop_body rows st)
             = map (fun p => (fst p, info_of p))
                 (fold_left (fun d p => setitem (fst p) (snd p) d)
                    (excel_pairs rows) d)).
  { induction rows as [|row rows IH]; intros st d H; simpl; [exact H|].
    unfold excel_pairs. simpl. rewrite fold_left_app.
    apply IH. now apply excel_loop_body_pairs. }
  assert (E : order_data rows = map info_of (App.final_pairs (excel_pairs rows))).
  { unfold order_data, process_rows, values.
    rewrite (G initial_state [] eq_refl), map_map. reflexivity. }
  split; [exact E|]. rewrite E. split.
  - rewrite map_map. cbn. apply (final_pairs_spec (excel_pairs rows)).
  - apply Forall_map, Forall_forall. intros [k t] I. cbn.
    apply final_pairs_subset in I. unfold excel_pairs in I.
    apply in_flat_map in I. destruct I as (row & _ & I).
    unfold excel_pair in I.
    destruct (is_empty (clean_value (fst row)) || is_empty (clean_value (snd row)))
      eqn:B; [contradiction|].
    destruct I as [I|[]]. injection I as _ <-.
    apply orb_false_iff in B. destruct B as [_ B].
    split; [now apply is_empty_false|].
    unfold clean_value. destruct (snd row); [apply strip_idem | reflexivity].
Qed.

End Workbook.

Section Upload.

Import PyStr PyDict Pandas ExcelService GoogleSheetsService App Spec.

Lemma summary_not_empty (st : ExcelService.loop_state) :
  is_empty (summary st) = false.
Proof.
  unfold summary. cbv zeta.
  match goal with
  | |- context [match ?l with [] => _ | _ :: _ => _ end] => destruct l
  end; reflexivity.
Qed.

(** The message of [process_excel_file] is never the empty text. *)
Lemma process_message_not_empty (file : result workbook) :
  message_empty (snd (process_excel_file file)) = false.
Proof.
  unfold process_excel_file. destruct file as [df|x]; [|reflexivity].
  destruct (validate_cases df) as [(oc & tc & V & _) | (m & V & M & _)];
    rewrite V.
  - cbn. apply summary_not_empty.
  - exact M.
Qed.

Lemma remove_existing_filter (df : DataFrame) (rows values : list LedgerRow) :
  remove_existing df rows = Ok values -> exists f, values = filter f rows.
Proof.
  unfold remove_existing. destruct (empty df).
  - intros H. injection H as <-. exists (fun _ => true).
    induction rows as [|r rows IH]; simpl; [reflexivity | now rewrite <- IH].
  - destruct (isin_targets df); [|discriminate].
    intros H. injection H as <-. eauto.
Qed.

Lemma new_rows_length (today : string) (order_data : list (dict string)) :
  length (new_rows today order_data) <= length order_data.
Proof.
  unfold new_rows. induction order_data as [|o od IH]; simpl; [lia|].
  rewrite length_app. unfold new_row at 1.
  destruct (is_empty (get_default "order_number" o)); simpl; lia.
Qed.

Lemma filter_length_bound {A : Type} (f : A -> bool) (l : list A) :
  length (filter f l) <= length l.
Proof.
  induction l as [|a l IH]; simpl; [lia|].
  destruct (f a); simpl; lia.
Qed.

Lemma appended_orders_of_append (e : env) (values : list LedgerRow) (s n : nat) :
  appended_orders (values_append values :: _setup_checkbox_validation e s n)
  = map GoogleSheetsService.order_number values.
Proof.
  unfold appended_orders, _setup_checkbox_validation. simpl.
  destruct (sheet_id e); simpl; now rewrite app_nil_r.
Qed.

(** The orders an append writes: at most one per order of the batch,
    none with an empty order number. *)
Lemma append_order_data_orders (e : env) (order_data : list (dict string)) :
  ~ In "" (appended_orders (append_calls (append_order_data e order_data)))
  /\ length (appended_orders (append_calls (append_order_data e order_data)))
     <= length order_data.
Proof.
  destruct (get_existing_data_ok (read_response e)) as [df H].
  destruct order_data as [|o od] eqn:Eo; [simpl; split; [tauto | lia]|].
  rewrite <- Eo.
  destruct (new_rows (strftime_dmy (now e)) order_data) as [|r0 rs0] eqn:En.
  { unfold append_order_data. rewrite H, Eo, <- Eo, En. simpl. split; [tauto | lia]. }
  assert (N1 : order_data <> []) by (rewrite Eo; discriminate).
  assert (N2 : new_rows (strftime_dmy (now e)) order_data <> [])
    by (rewrite En; discriminate).
  rewrite (append_order_data_unfold e order_data df H N1 N2).
  destruct (remove_existing df (new_rows (strftime_dmy (now e)) order_data))
    as [[|v vs]|x] eqn:R; cbn [append_calls]; try (simpl; split; [tauto | lia]).
  assert (A : appended_orders
                (append_calls
                   match append_error e with
                   | Some x =>
                       {| append_calls := [values_append (v :: vs)];
                          append_returned := Raise (wrap_append x) |}
                   | None =>
                       {| append_calls :=
                            values_append (v :: vs)
                            :: _setup_checkbox_validation e (len df + 1 + 1)
                                 (len df + 1 + length (v :: vs));
                          append_returned := Ok true |}
                   end)
              = map GoogleSheetsService.order_number (v :: vs)).
  { destruct (append_error e); cbn [append_calls];
      [|apply appended_orders_of_append].
    unfold appended_orders. cbn [flat_map]. apply app_nil_r. }
  rewrite A. clear A.
  destruct (remove_existing_filter _ _ _ R) as [f F]. rewrite F. split.
  - intros I. apply in_map_iff in I. destruct I as (r & E & I).
    apply filter_In in I. destruct I as [I _].
    apply new_rows_in in I. destruct I as (order & _ & N & ->).
    cbn in E. congruence.
  - rewrite length_map.
    pose proof (filter_length_bound f (new_rows (strftime_dmy (now e)) order_data)).
    pose proof (new_rows_length (strftime_dmy (now e)) order_data). lia.
Qed.

(** X16. The upload handler never ends with "No valid data found": the
    message of [process_excel_file] is never empty, so a workbook without
    a usable row is reported through the error branch. When the upload
    succeeds, the count of the success message is the number of entries
    read from the workbook, the rows appended are at most that many, and
    none of them has an empty order number. *)
Theorem upload_excel_outcomes :
  forall (e : env) (file : option upload),
    upload_excel e file <> NoValidData
    /\ (forall n m cs,
           upload_excel e file = Uploaded n m cs ->
           (exists f, file = Some f
                      /\ n = length (fst (process_excel_file (content f)))
                      /\ 1 <= n)
           /\ ~ In "" (appended_orders cs)
           /\ length (appended_orders cs) <= n).
Proof.
  intros e file. unfold upload_excel.
  destruct file as [f|]; [|split; [discriminate | intros n m cs H; discriminate]].
  destruct (String.eqb (filename f) "");
    [split; [discriminate | intros n m cs H; discriminate]|].
  destruct (negb _); [split; [discriminate | intros n m cs H; discriminate]|].
  pose proof (process_message_not_empty (content f)) as M.
  destruct (process_excel_file (content f)) as [od m0] eqn:P. simpl in M.
  destruct od as [|o od'] eqn:Eo.
  - rewrite M. simpl. split; [discriminate | intros n m cs H; discriminate].
  - rewrite <- Eo.
    pose proof (append_order_data_orders e (map order_dict od)) as [A1 A2].
    rewrite length_map in A2.
    destruct (append_returned (append_order_data e (map order_dict od)));
      split; try discriminate.
    + intros n m cs H. injection H as <- <- <-.
      split; [|split; assumption].
      exists f. split; [reflexivity|]. rewrite P, Eo. simpl. split; lia.
Qed.

Lemma upload_excel_outcomes_witness :
  let e := {| read_response := ApiOk []; sheet_id := Some 0;
              now := {| year := 2026; month := 3; day := 7 |};
              update_error := None; append_error := None |} in
  let f := {| filename := "orders.xlsx";
              content := Ok {| wb_columns := ["ORDER #"; "Tracking"];
                               wb_rows := [[Some "#"; Some "T0"];
                                           [Some "#1001"; Some "T1"]] |} |} in
  exists cs, upload_excel e (Some f) = Uploaded 2 (Text "Skipped 0 row(s)") cs
             /\ length (appended_orders cs) <= 2.
Proof.
  cbv zeta. eexists. split; [reflexivity|].
  match goal with
  | |- length (appended_orders ?cs) <= 2 =>
      exact (proj2 (proj2 (proj2
        (upload_excel_outcomes
           {| read_response := ApiOk []; sheet_id := Some 0;
              now := {| year := 2026; month := 3; day := 7 |};
              update_error := None; append_error := None |}
           (Some {| filename := "orders.xlsx";
                    content := Ok {| wb_columns := ["ORDER #"; "Tracking"];
                                     wb_rows := [[Some "#"; Some "T0"];
                                                 [Some "#1001"; Some "T1"]] |} |}))
        2 (Text "Skipped 0 row(s)") cs eq_refl)))
  end.
Defined.

End Upload.

(** * Further properties of the bulk form *)

Section BulkLines.

Import PyStr GoogleSheetsService App Spec.

Lemma split1_two (c : ascii) (s p0 p1 : string) :
  split1 c s = [p0; p1] -> contains c p0 = false /\ s = p0 ++ String c p1.
Proof.
  revert p0. induction s as [|d r IH]; intros p0; simpl; [discriminate|].
  destruct (Ascii.eqb_spec d c) as [->|N].
  - intros H. injection H as <- <-. split; reflexivity.
  - destruct (split1 c r) as [|h t] eqn:E; [discriminate|].
    intros H. injection H as <- ->.
    destruct (IH h eq_refl) as [C ->]. split; [|reflexivity].
    simpl. apply Ascii.eqb_neq in N. now rewrite N.
Qed.

Lemma contains_lstrip (c : ascii) (s : string) :
  contains c s = false -> contains c (lstrip s) = false.
Proof.
  induction s as [|d r IH]; simpl; [reflexivity|].
  destruct (isspace d); intros H; apply orb_false_iff in H; destruct H as [H1 H2].
  - now apply IH.
  - simpl. now rewrite H1, H2.
Qed.

Lemma contains_rstrip (c : ascii) (s : string) :
  contains c s = false -> contains c (rstrip s) = false.
Proof.
  induction s as [|d r IH]; simpl; [reflexivity|].
  intros H. apply orb_false_iff in H. destruct H as [H1 H2].
  destruct (isspace d && is_empty (rstrip r)); simpl; [reflexivity|].
  now rewrite H1, (IH H2).
Qed.

Lemma contains_clean (c : ascii) (s : string) :
  contains c s = false -> contains c (clean_order_number s) = false.
Proof.
  intros H. unfold clean_order_number.
  assert (S : contains c (strip s) = false)
    by (unfold strip; now apply contains_rstrip, contains_lstrip).
  destruct (strip s) as [|d r]; simpl in *; [reflexivity|].
  apply orb_false_iff in S. destruct S as [S1 S2].
  destruct (Ascii.eqb d "#"); simpl; [exact S2 | now rewrite S1, S2].
Qed.

(** X17. Both tokens of a parsed pair are non-empty; the order number
    holds no space and the tracking number has no blank at either end. *)
Theorem parsed_pair_shape :
  forall (n : nat) (raw o t : string),
    parse_line n raw = Good o t ->
    o <> "" /\ t <> "" /\ contains " " o = false /\ strip t = t.
Proof.
  intros n raw o t H.
  destruct (parse_line_good n raw o t H) as [Ho Ht].
  split; [exact Ho|]. split; [exact Ht|].
  unfold parse_line in H. destruct (is_empty (strip raw)); [discriminate|].
  destruct (split1 " " (strip raw)) as [|p0 [|p1 [|p2 l]]] eqn:E; try discriminate.
  cbv zeta in H.
  match type of H with
  | (if ?b then _ else _) = _ => destruct b; [discriminate|]
  end.
  injection H as <- <-.
  destruct (split1_two _ _ _ _ E) as [C _]. split.
  - exact (contains_clean " " p0 C).
  - apply strip_idem.
Qed.

Lemma parsed_pair_shape_witness :
  "3695239669" <> "" /\ "UK 216" <> ""
  /\ contains " " "3695239669" = false /\ strip "UK 216" = "UK 216".
Proof.
  exact (parsed_pair_shape 1 " #3695239669  UK 216 " "3695239669" "UK 216" eq_refl).
Defined.

Lemma rstrip_app_keep (a t : string) :
  rstrip t <> "" -> rstrip (a ++ t) = a ++ rstrip t.
Proof.
  intros H. induction a as [|c a IH]; simpl; [reflexivity|].
  rewrite IH. destruct (a ++ rstrip t) eqn:E.
  - destruct a; simpl in E; [contradiction | discriminate].
  - simpl. now rewrite andb_false_r.
Qed.

Lemma append_assoc_str (a b c : string) : (a ++ b) ++ c = a ++ (b ++ c).
Proof. induction a as [|x a IH]; simpl; [reflexivity | now rewrite IH]. Qed.

Lemma strip_line (o t : string) :
  o <> "" -> strip o = o -> t <> "" -> strip t = t ->
  strip (o ++ String " " t) = o ++ String " " t.
Proof.
  intros No So Nt St.
  destruct (strip_fixed t St) as [_ Rt].
  assert (Lh : lstrip (o ++ String " " t) = o ++ String " " t).
  { destruct o as [|c o]; [contradiction|].
    pose proof (strip_head _ _ _ So) as Hc. simpl. now rewrite Hc. }
  assert (A : o ++ String " " t = (o ++ " ") ++ t)
    by (now rewrite append_assoc_str).
  unfold strip. rewrite Lh, A.
  rewrite rstrip_app_keep by (rewrite Rt; exact Nt). now rewrite Rt.
Qed.

(** X18. Writing a pair as a line and parsing it gives the pair back,
    with or without a [#] before the order number, for an order number
    without blanks that does not start with [#] and a tracking number
    without blanks at its ends; a list of such lines parses to the list
    of the pairs, in order, without parse error. *)
Theorem line_round_trip :
  forall ps : list (string * string),
    Forall (fun p => fst p <> "" /\ strip (fst p) = fst p
                     /\ contains " " (fst p) = false
                     /\ startswith "#" (fst p) = false
                     /\ snd p <> "" /\ strip (snd p) = snd p) ps ->
    (forall n p, In p ps ->
       parse_line n (line_of p) = Good (fst p) (snd p)
       /\ parse_line n (String "#" (line_of p)) = Good (fst p) (snd p))
    /\ parse (map line_of ps) = (ps, []).
Proof.
  intros ps F.
  assert (L : forall n p, In p ps ->
                parse_line n (line_of p) = Good (fst p) (snd p)
                /\ parse_line n (String "#" (line_of p)) = Good (fst p) (snd p)).
  { intros n [o t] I. rewrite Forall_forall in F.
    destruct (F (o, t) I) as (No & So & Co & Ho & Nt & St). simpl in *.
    unfold line_of. simpl fst; simpl snd.
    pose proof (proj2 (is_empty_false _) No) as Eo.
    pose proof (proj2 (is_empty_false _) Nt) as Et.
    destruct (strip_fixed o So) as [_ Ro].
    split.
    - unfold parse_line. rewrite (strip_line o t No So Nt St).
      rewrite (split1_first " " o t Co).
      destruct o as [|c o]; [contradiction|]. cbn [append is_empty].
      cbv zeta. rewrite So, St, Ho. cbn [is_empty]. now rewrite Et.
    - assert (S1 : strip (String "#" o) = String "#" o).
      { unfold strip. simpl. now rewrite Ro. }
      assert (SL : strip (String "#" (o ++ String " " t))
                   = String "#" (o ++ String " " t)).
      { apply (strip_line (String "#" o) t); [discriminate | exact S1 | exact Nt | exact St]. }
      unfold parse_line. rewrite SL. cbn [is_empty].
      change (String "#" (o ++ String " " t)) with (String "#" o ++ String " " t).
      rewrite (split1_first " " (String "#" o) t) by (simpl; exact Co).
      cbv zeta. rewrite S1, St. cbn [startswith tail]. rewrite Ascii.eqb_refl.
      now rewrite Eo, Et. }
  split; [exact L|].
  rewrite parse_closed_form.
  assert (G : forall n, pairs_from n (map line_of ps) = ps
                        /\ errors_from n (map line_of ps) = []).
  { induction ps as [|p ps IH]; intros n; simpl; [split; reflexivity|].
    inversion F as [|? ? Fp Fps]; subst.
    destruct (IH Fps (fun n q I => L n q (or_intror I)) (S n)) as [-> ->].
    unfold pairs_of_line, errors_of_line.
    rewrite (proj1 (L n p (or_introl eq_refl))). destruct p. split; reflexivity. }
  destruct (G 1) as [-> ->]. reflexivity.
Qed.

Lemma line_round_trip_witness :
  parse ["1001 UK 216"; "2002 T2"] = ([("1001", "UK 216"); ("2002", "T2")], []).
Proof.
  refine (proj2 (line_round_trip [("1001", "UK 216"); ("2002", "T2")] _)).
  repeat constructor; discriminate.
Defined.

End BulkLines.

Section BulkBatch.

Import PyStr PyDict Pandas GoogleSheetsService App Spec.

Lemma setitem_fresh {V : Type} (k : string) (v : V) (d : dict V) :
  ~ In k (keys d) -> setitem k v d = (d ++ [(k, v)])%list.
Proof.
  induction d as [|[k' v'] d IH]; simpl; intros H; [reflexivity|].
  destruct (String.eqb_spec k' k) as [->|N]; [exfalso; apply H; now left|].
  rewrite IH; [reflexivity|]. intros I. apply H. now right.
Qed.

Lemma fold_setitem_fresh (ps : list (string * string)) :
  forall d : dict string,
    NoDup (keys d ++ map fst ps) ->
    fold_left (fun d p => setitem (fst p) (snd p) d) ps d = (d ++ ps)%list.
Proof.
  induction ps as [|[o t] ps IH]; intros d H; simpl.
  - now rewrite app_nil_r.
  - rewrite setitem_fresh.
    + rewrite IH.
      * now rewrite <- app_assoc.
      * unfold keys in *. rewrite map_app, <- app_assoc. exact H.
    + intros I. apply NoDup_remove_2 in H. apply H.
      apply in_or_app. now left.
Qed.

(** X19. The removal of duplicates leaves a batch without repeated order
    number as it is, in the same order, and applying it twice is the same
    as applying it once. *)
Theorem final_pairs_fixed_point :
  forall ps : list (string * string),
    (NoDup (map fst ps) -> final_pairs ps = ps)
    /\ final_pairs (final_pairs ps) = final_pairs ps
    /\ length (final_pairs ps) <= length ps.
Proof.
  assert (F : forall ps, NoDup (map fst ps) -> final_pairs ps = ps).
  { intros ps H. unfold final_pairs, unique_pairs, items.
    now rewrite (fold_setitem_fresh ps [] H). }
  intros ps. split; [apply F|]. split.
  - apply F. apply (final_pairs_spec ps).
  - rewrite final_pairs_length, <- (length_map fst ps).
    apply NoDup_incl_length; [apply NoDup_nodup|].
    intros k. now rewrite nodup_In.
Qed.

Lemma final_pairs_fixed_point_witness :
  final_pairs [("2002", "B"); ("1001", "A")] = [("2002", "B"); ("1001", "A")].
Proof.
  refine (proj1 (final_pairs_fixed_point [("2002", "B"); ("1001", "A")]) _).
  repeat constructor; simpl; intuition discriminate.
Defined.

(** What a completed request of the bulk form says about the service
    call behind it. *)
Lemma bulk_update_completed (e : env) (text : string) (pe : list parse_error)
  (dups : nat) (cs : list api_call) (a u s : nat) :
  bulk_update e text = Completed pe dups cs a u s ->
  exists (pairs : list (string * string)) (df : DataFrame)
         (col : option (list cell)),
    pairs <> []
    /\ (forall o t, In (o, t) pairs -> o <> "" /\ t <> "")
    /\ _get_existing_data (read_response e) = Ok df
    /\ order_column_of df = Ok col
    /\ let st := reconcile col (strftime_dmy (now e)) (final_pairs pairs) in
       a = added_count st /\ u = updated_count st /\ s = skipped_count st
       /\ cs = commit e df st.
Proof.
  intros H. pose proof (bulk_update_unfold e text) as U. cbv zeta in U.
  rewrite U in H. clear U.
  destruct (is_empty (strip text)); [discriminate|].
  pose proof (pairs_from_nonempty (lines_of text) 1) as NE.
  destruct (pairs_from 1 (lines_of text)) as [|p0 rest] eqn:Ep; [discriminate|].
  destruct (get_existing_data_ok (read_response e)) as [df Hdf].
  pose proof (bulk_update_orders_returned e (final_pairs (p0 :: rest)) df Hdf) as R.
  destruct (order_column_of df) as [col|x] eqn:O.
  - cbv zeta in R. rewrite R in H. cbn [returned calls] in H.
    destruct (snd (commit_outcome e df
                     (reconcile col (strftime_dmy (now e))
                        (final_pairs (p0 :: rest))))) eqn:W;
      [discriminate|].
    rewrite (commit_outcome_none e df _ W) in H.
    injection H as _ _ <- <- <- <-.
    exists (p0 :: rest), df, col. split; [discriminate|].
    split; [exact NE|]. split; [exact Hdf|]. split; [exact O|].
    cbv zeta. repeat split.
  - rewrite R in H. cbn [returned] in H. discriminate.
Qed.

(** X20. A bulk request that is processed to its end has added or
    updated at least one order and skipped none, and it has issued a
    write: the final message names what was added or updated, never an
    order skipped, and is never the one for "no changes". *)
Theorem completed_bulk_update_changed_something :
  forall (e : env) (text : string) (pe : list parse_error) (dups : nat)
         (cs : list api_call) (a u s : nat),
    bulk_update e text = Completed pe dups cs a u s ->
    1 <= a + u /\ s = 0 /\ cs <> []
    /\ message_parts a u s <> []
    /\ length (message_parts a u s) <= 2.
Proof.
  intros e text pe dups cs a u s H.
  destruct (bulk_update_completed e text pe dups cs a u s H)
    as (pairs & df & col & N & NE & Hdf & O & K).
  cbv zeta in K. destruct K as (-> & -> & -> & ->).
  set (st := reconcile col (strftime_dmy (now e)) (final_pairs pairs)).
  pose proof (reconcile_counts col (strftime_dmy (now e)) (final_pairs pairs)) as C.
  destruct (reconcile_closed_form col (strftime_dmy (now e)) (final_pairs pairs))
    as (_ & _ & NA & NU & HS).
  cbv zeta in C. fold st in C, NA, NU, HS.
  assert (Z : skipped_count st = 0).
  { rewrite HS, no_skip_when_nonempty; [reflexivity|].
    intros o t I. apply (NE o t). now apply final_pairs_subset. }
  assert (P : 1 <= length (final_pairs pairs)).
  { destruct pairs as [|[o t] ps]; [contradiction|].
    destruct (final_pairs_spec ((o, t) :: ps)) as (_ & I & _).
    assert (In o (map fst (final_pairs ((o, t) :: ps))))
      by (apply I; now left).
    destruct (final_pairs ((o, t) :: ps)); [contradiction | simpl; lia]. }
  assert (AU : 1 <= added_count st + updated_count st) by lia.
  split; [exact AU|]. split; [exact Z|]. split; [|split].
  - unfold commit.
    destruct (rows_to_update st) as [|u0 us]; destruct (rows_to_add st) as [|r0 rs];
      simpl in NA, NU; try discriminate. lia.
  - unfold message_parts. rewrite Z. cbv zeta.
    destruct (added_count st) as [|a']; destruct (updated_count st) as [|u'];
      simpl; try discriminate. lia.
  - unfold message_parts. rewrite Z. cbv zeta.
    destruct (0 <? added_count st)%nat; destruct (0 <? updated_count st)%nat;
      simpl; lia.
Qed.

Lemma completed_bulk_update_changed_something_witness :
  let e := {| read_response := ApiOk []; sheet_id := Some 0;
              now := {| year := 2026; month := 3; day := 7 |};
              update_error := None; append_error := None |} in
  exists cs, bulk_update e "#1001 TRACK123" = Completed [] 0 cs 1 0 0
             /\ 1 <= 1 + 0.
Proof.
  cbv zeta. eexists. split; [reflexivity|].
  match goal with
  | |- 1 <= 1 + 0 =>
      exact (proj1 (completed_bulk_update_changed_something
               {| read_response := ApiOk []; sheet_id := Some 0;
                  now := {| year := 2026; month := 3; day := 7 |};
                  update_error := None; append_error := None |}
               "#1001 TRACK123" [] 0 _ 1 0 0 eq_refl))
  end.
Defined.

(** X21. Parse errors give at most three warnings: one per error, with
    its line, when there are up to three errors, and a single warning with
    only their number when there are more. *)
Theorem parse_error_warnings_bounded :
  forall errors : list parse_error,
    length (parse_error_flashes errors) <= 3
    /\ Forall (fun f => snd f = "warning") (parse_error_flashes errors)
    /\ (length errors <= 3 ->
        map fst (parse_error_flashes errors)
        = map (fun e => "Skipped - " ++ message_of e) errors)
    /\ (3 < length errors ->
        parse_error_flashes errors
        = [("Skipped " ++ str_of_nat (length errors)
            ++ " lines with formatting errors", "warning")]).
Proof.
  intros errors. unfold parse_error_flashes.
  destruct errors as [|e0 es] eqn:E; [simpl; repeat split; try constructor; lia|].
  rewrite <- E. destruct (Nat.leb_spec (length errors) 3) as [L|L].
  - split; [now rewrite length_map|]. split.
    + apply Forall_map, Forall_forall. reflexivity.
    + split; [intros _; now rewrite map_map | lia].
  - split; [simpl; lia|]. split; [repeat constructor|].
    split; [lia | reflexivity].
Qed.

Lemma parse_error_warnings_bounded_witness :
  map fst (parse_error_flashes [EmptyField 2; InvalidFormat 4 "abc"])
  = ["Skipped - Line 2: Empty order number or tracking number";
     "Skipped - Line 4: 'abc' - Invalid format (should be: order_number tracking_number)"].
Proof.
  refine (proj1 (proj2 (proj2 (parse_error_warnings_bounded
            [EmptyField 2; InvalidFormat 4 "abc"]))) _).
  simpl. lia.
Defined.

End BulkBatch.

Section BulkOutcome.

Import PyStr Pandas GoogleSheetsService App Spec.

Lemma split1_of_contains (c : ascii) (s : string) :
  contains c s = true -> exists a b, split1 c s = [a; b].
Proof.
  intros H. destruct (contains_cut c s H) as (a & b & -> & Ha).
  exists a, b. now apply split1_first.
Qed.

Lemma parse_line_bad (n : nat) (raw : string) (e : parse_error) :
  parse_line n raw = Bad e ->
  error_line e = n
  /\ strip raw <> ""
  /\ (e = EmptyField n
      \/ (e = InvalidFormat n (strip raw) /\ contains " " (strip raw) = false)).
Proof.
  unfold parse_line. destruct (is_empty (strip raw)) eqn:B; [discriminate|].
  apply is_empty_false in B.
  destruct (contains " " (strip raw)) eqn:C.
  - destruct (split1_of_contains _ _ C) as (a & b & ->). cbv zeta.
    match goal with
    | |- (if ?b then _ else _) = _ -> _ => destruct b; [|discriminate]
    end.
    intros H. injection H as <-. simpl. auto.
  - rewrite (split1_none _ _ C). intros H. injection H as <-. simpl. auto.
Qed.

Lemma errors_from_in (lines : list string) (e : parse_error) :
  forall n, In e (errors_from n lines) ->
    exists k raw, nth_error lines k = Some raw /\ parse_line (n + k) raw = Bad e.
Proof.
  induction lines as [|raw rest IH]; intros n; simpl; [tauto|].
  rewrite in_app_iff. intros [H|H].
  - unfold errors_of_line in H. destruct (parse_line n raw) eqn:P; try contradiction.
    destruct H as [<-|[]]. exists 0, raw. now rewrite Nat.add_0_r.
  - destruct (IH (S n) H) as (k & r & Hk & Hp).
    exists (S k), r. split; [exact Hk|].
    now replace (n + S k) with (S n + k) by lia.
Qed.

(** X22. The number a parse error carries is the position of its line
    among the lines of the form, counted from 1 with the blank lines
    included; that line is not blank, and an "invalid format" error quotes
    the stripped line, which has no space. *)
Theorem parse_error_line_numbers :
  forall (lines : list string) (e : parse_error),
    In e (snd (parse lines)) ->
    1 <= error_line e <= length lines
    /\ exists raw,
         nth_error lines (error_line e - 1) = Some raw
         /\ strip raw <> ""
         /\ parse_line (error_line e) raw = Bad e
         /\ (e = EmptyField (error_line e)
             \/ (e = InvalidFormat (error_line e) (strip raw)
                 /\ contains " " (strip raw) = false)).
Proof.
  intros lines e H. rewrite parse_closed_form in H. simpl in H.
  destruct (errors_from_in lines e 1 H) as (k & raw & Hk & Hp).
  destruct (parse_line_bad _ _ _ Hp) as (En & B & K).
  rewrite En. replace (1 + k - 1) with k by lia.
  assert (k < length lines) by (apply nth_error_Some; congruence).
  split; [lia|]. exists raw. repeat split; assumption.
Qed.

Lemma parse_error_line_numbers_witness :
  1 <= 3 <= 3.
Proof.
  exact (proj1 (parse_error_line_numbers ["1 A"; ""; "oops"]
                  (InvalidFormat 3 "oops") (or_introl eq_refl))).
Defined.

(** X23. How a request of the bulk form ends: with "no order data"
    exactly when the text is blank; with "no valid pairs" when the text is
    not blank and no line parses; and, when a line parses, with the error
    of the service if the column lookup on the frame raises, the pairs
    then being lost without any write. *)
Theorem bulk_update_outcome_cases :
  forall (e : env) (text : string) (df : DataFrame),
    _get_existing_data (read_response e) = Ok df ->
    let parsed := parse (lines_of text) in
    (bulk_update e text = NoOrderData <-> all_space text = true)
    /\ (all_space text = false -> fst parsed = [] ->
        bulk_update e text = NoValidPairs (snd parsed))
    /\ (all_space text = false -> fst parsed <> [] ->
        forall x, order_column_of df = Raise x ->
          bulk_update e text
          = Failed (snd parsed)
              (length (fst parsed) - length (final_pairs (fst parsed)))
              (Wrapped "Failed to bulk update orders: " x)
          /\ calls (bulk_update_orders e (final_pairs (fst parsed))) = []).
Proof.
  intros e text df H. cbv zeta.
  pose proof (bulk_update_unfold e text) as U. cbv zeta in U.
  rewrite parse_closed_form. simpl fst; simpl snd.
  assert (A : is_empty (strip text) = all_space text).
  { destruct (all_space text) eqn:E.
    - apply is_empty_true. now apply strip_empty.
    - apply is_empty_false. intros C. apply strip_empty in C. congruence. }
  rewrite A in U. split; [|split].
  - rewrite U. destruct (all_space text); [tauto|].
    split; [|discriminate].
    destruct (pairs_from 1 (lines_of text)); [discriminate|].
    destruct (returned _) as [[[a u] s]|x]; discriminate.
  - intros B P. now rewrite U, B, P.
  - intros B P x O. rewrite U, B.
    pose proof (bulk_update_orders_returned e
                  (final_pairs (pairs_from 1 (lines_of text))) df H) as R.
    rewrite O in R. rewrite R. cbn [returned calls].
    destruct (pairs_from 1 (lines_of text)); [contradiction|].
    split; reflexivity.
Qed.

Lemma bulk_update_outcome_cases_witness :
  let e := {| read_response := ApiOk []; sheet_id := Some 0;
              now := {| year := 2026; month := 3; day := 7 |};
              update_error := None; append_error := None |} in
  bulk_update e "oops" = NoValidPairs [InvalidFormat 1 "oops"].
Proof.
  cbv zeta.
  exact (proj1 (proj2 (bulk_update_outcome_cases
                  {| read_response := ApiOk []; sheet_id := Some 0;
                     now := {| year := 2026; month := 3; day := 7 |};
                     update_error := None; append_error := None |}
                  "oops" empty_frame eq_refl)) eq_refl eq_refl).
Defined.

End BulkOutcome.

Section SheetHeader.

Import Pandas GoogleSheetsService Spec.

(** X24. On a sheet that has the header the service itself writes, the
    column lookup of [bulk_update_orders] never raises: whatever the data
    rows are, the frame read is empty or has exactly one order-number
    column. The call then classifies every pair, the three counts adding
    up to the number of pairs, and returns them unless the store refuses
    a write the call sends (the batch of updates when a row is updated,
    the append when a row is added): only then does it raise, with that
    write's error. *)
Theorem bulk_update_orders_total_on_own_header :
  forall (sid : option nat) (d : datetime) (ue ae : option exn)
         (data : list (list string)) (pairs : list (string * string)),
    let e := {| read_response := ApiOk (sheet_header :: data);
                sheet_id := sid; now := d;
                update_error := ue; append_error := ae |} in
    exists df col a u s,
      _get_existing_data (read_response e) = Ok df
      /\ order_column_of df = Ok col
      /\ a + u + s = length pairs
      /\ returned (bulk_update_orders e pairs)
         = match (if (u =? 0)%nat then None else ue) with
           | Some x => Raise (Wrapped "Failed to bulk update orders: " x)
           | None =>
               match (if (a =? 0)%nat then None else ae) with
               | Some x => Raise (Wrapped "Failed to bulk update orders: " x)
               | None => Ok (a, u, s)
               end
           end.
Proof.
  intros sid d ue ae data pairs. cbv zeta.
  destruct (get_existing_data_ok (ApiOk (sheet_header :: data))) as [df H].
  assert (C : empty df = true
              \/ count_occ string_dec (columns df) "order_number" = 1).
  { simpl in H. destruct (DataFrame_of data sheet_header) as [f|] eqn:F.
    - injection H as <-. right.
      unfold DataFrame_of in F. destruct data as [|r rs].
      + injection F as <-. reflexivity.
      + destruct (_ =? _)%nat; [|discriminate]. injection F as <-. reflexivity.
    - injection H as <-. now left. }
  pose proof (bulk_update_orders_returned
                {| read_response := ApiOk (sheet_header :: data);
                   sheet_id := sid; now := d;
                   update_error := ue; append_error := ae |} pairs df H) as R.
  assert (O : exists col, order_column_of df = Ok col).
  { unfold order_column_of. destruct (empty df) eqn:E; [eauto|].
    destruct C as [C|C]; [discriminate|].
    destruct (getitem_one df _ C) as (i & _ & ->). eauto. }
  destruct O as [col O]. rewrite O in R. cbv zeta in R. rewrite R.
  cbn [returned now read_response]. rewrite commit_outcome_snd.
  cbn [update_error append_error].
  destruct (reconcile_closed_form col (strftime_dmy d) pairs)
    as (_ & _ & NA & NU & _).
  rewrite <- NA, <- NU.
  exists df, col, (added_count (reconcile col (strftime_dmy d) pairs)),
         (updated_count (reconcile col (strftime_dmy d) pairs)),
         (skipped_count (reconcile col (strftime_dmy d) pairs)).
  split; [exact H|]. split; [exact O|].
  split; [apply (reconcile_counts col (strftime_dmy d) pairs)|].
  destruct (updated_count _ =? 0)%nat; [|destruct ue];
    try reflexivity;
    (destruct (added_count _ =? 0)%nat; [|destruct ae]; reflexivity).
Qed.

Lemma batchUpdate_app (l1 l2 : list ValueRange) (g : Sheet.sheet) :
  Sheet.batchUpdate (l1 ++ l2) g = Sheet.batchUpdate l2 (Sheet.batchUpdate l1 g).
Proof. unfold Sheet.batchUpdate. apply fold_left_app. Qed.

Lemma requests_of_other_row (u : update_row) (g : Sheet.sheet) (row : nat)
  (c : string) :
  u_row u <> row -> Sheet.batchUpdate (requests_of u) g row c = g row c.
Proof.
  intros N. apply batchUpdate_other_row. unfold requests_of.
  repeat constructor; simpl; congruence.
Qed.

Lemma requests_of_same_row (u : update_row) (g : Sheet.sheet) :
  let g' := Sheet.batchUpdate (requests_of u) g in
  g' (u_row u) "B" = Sheet.Text (u_tracking_number u)
  /\ g' (u_row u) "C" = Sheet.Text (u_date u)
  /\ g' (u_row u) "D" = Sheet.Text (u_tracking_link u).
Proof.
  cbv zeta. unfold Sheet.batchUpdate, requests_of, Sheet.write. simpl.
  rewrite Nat.eqb_refl. repeat split.
Qed.

(** X25. After the batch of updates, a row targeted by some entry holds
    the tracking number, date and link of the last entry that targets it
    (a later pair overwrites an earlier one on the same row), and a row
    that no entry targets is unchanged in every column. *)
Theorem batch_of_updates_last_entry_wins :
  forall (us : list update_row) (g : Sheet.sheet) (row : nat),
    let g' := Sheet.batchUpdate (update_requests us) g in
    match last_entry row us with
    | Some u =>
        In u us /\ u_row u = row
        /\ g' row "B" = Sheet.Text (u_tracking_number u)
        /\ g' row "C" = Sheet.Text (u_date u)
        /\ g' row "D" = Sheet.Text (u_tracking_link u)
    | None => forall c, g' row c = g row c
    end.
Proof.
  intros us. induction us as [|u us IH]; intros g row; cbv zeta.
  - simpl. reflexivity.
  - cbn [last_entry].
    change (update_requests (u :: us))
      with (requests_of u ++ update_requests us)%list.
    rewrite batchUpdate_app.
    specialize (IH (Sheet.batchUpdate (requests_of u) g) row). cbv zeta in IH.
    destruct (last_entry row us) as [v|].
    + destruct IH as (I & R & B & C & D).
      split; [now right|]. repeat split; assumption.
    + destruct (Nat.eqb_spec (u_row u) row) as [E|N].
      * split; [now left|]. split; [exact E|].
        rewrite !IH. subst row. apply requests_of_same_row.
      * intros c. rewrite IH. now apply requests_of_other_row.
Qed.

End SheetHeader.

Section Checkbox.

Import Pandas GoogleSheetsService.

(** X26. When a bound of [_setup_checkbox_validation] is missing, the
    bound that may be given is ignored and the rule is set on the data rows
    of the sheet only: the zero-based rows from 1 to the number of data
    rows plus one, never the header; nothing is sent when the sheet has no
    data row or the sheet id is not found. With both bounds given the
    sheet is not read. *)
Theorem checkbox_default_range :
  forall (e : env) (df : DataFrame),
    _get_existing_data (read_response e) = Ok df ->
    (forall s n, _setup_checkbox_validation_opt e (Some s) (Some n)
                 = _setup_checkbox_validation e s n)
    /\ (forall start_row end_row,
           start_row = None \/ end_row = None ->
           (forall sid a b,
               In (setDataValidation sid a b)
                  (_setup_checkbox_validation_opt e start_row end_row) ->
               sheet_id e = Some sid /\ a = 1 /\ b = len df + 1 /\ 1 <= len df)
           /\ (empty df = true ->
               _setup_checkbox_validation_opt e start_row end_row = [])
           /\ length (_setup_checkbox_validation_opt e start_row end_row) <= 1).
Proof.
  intros e df H. split.
  - intros s n. unfold _setup_checkbox_validation_opt, _setup_checkbox_validation.
    now destruct (sheet_id e).
  - intros start_row end_row N.
    assert (D : _setup_checkbox_validation_opt e start_row end_row
                = match sheet_id e with
                  | None => []
                  | Some sid => if empty df then []
                                else [setDataValidation sid 1 (len df + 1)]
                  end).
    { unfold _setup_checkbox_validation_opt. rewrite H.
      destruct (sheet_id e); [|reflexivity].
      destruct N as [-> | ->]; [reflexivity|]. now destruct start_row. }
    rewrite D. split; [|split].
    + intros sid a b I. destruct (sheet_id e) as [sid'|]; [|contradiction].
      destruct (empty df) eqn:E; [contradiction|].
      destruct I as [I|[]]. injection I as <- <- <-.
      repeat split. unfold empty in E. apply orb_false_iff in E.
      destruct E as [E _]. apply Nat.eqb_neq in E. unfold len. lia.
    + intros E. rewrite E. now destruct (sheet_id e).
    + destruct (sheet_id e); [destruct (empty df)|]; simpl; lia.
Qed.

Lemma checkbox_default_range_witness :
  let e := {| read_response :=
                ApiOk [["Order Number"; "Tracking Number"];
                       ["1001"; "T1"]; ["1002"; "T2"]];
              sheet_id := Some 5;
              now := {| year := 2026; month := 3; day := 7 |};
              update_error := None; append_error := None |} in
  _setup_checkbox_validation_opt e (Some 40) None = [setDataValidation 5 1 3]
  /\ length (_setup_checkbox_validation_opt e (Some 40) None) <= 1.
Proof.
  cbv zeta. split; [reflexivity|].
  exact (proj2 (proj2 (proj2 (checkbox_default_range
           {| read_response :=
                ApiOk [["Order Number"; "Tracking Number"];
                       ["1001"; "T1"]; ["1002"; "T2"]];
              sheet_id := Some 5;
              now := {| year := 2026; month := 3; day := 7 |};
              update_error := None; append_error := None |}
           {| columns := ["order_number"; "tracking_number"];
              rows := [[Some "1001"; Some "T1"]; [Some "1002"; Some "T2"]] |}
           eq_refl) (Some 40) None (or_intror eq_refl)))).
Defined.

End Checkbox.

(** * Empty fields on the way to the reconciliation call *)

Section EmptyFields.

Import PyStr Pandas GoogleSheetsService App Spec.








End EmptyFields.

(** * The search of the ledger and the writes of a pair *)

Section LedgerSearch.

Import PyStr Pandas GoogleSheetsService Spec.






(** X27. On a ledger in which no order number holds a [#] after its
    leading one, the search of [bulk_update_orders] agrees with the
    comparison of order numbers cleaned the same way on both sides (trimmed,
    one leading [#] removed): it finds the first row, in sheet order, whose
    order number so cleaned is that of the pair, and it finds no row exactly
    when there is none. *)
Theorem search_agrees_on_ledger_without_inner_hash :
  forall (cells : list cell) (o : string),
    Forall (fun c => contains "#" (canonical c) = false) cells ->
    (forall i : nat,
        existing_row_idx (Some cells) (clean_order_number o) = Some i <->
        (exists c, nth_error cells i = Some c
                   /\ canonical c = clean_order_number o)
        /\ (forall j c, j < i -> nth_error cells j = Some c ->
                        canonical c <> clean_order_number o))
    /\ (existing_row_idx (Some cells) (clean_order_number o) = None <->
        Forall (fun c => canonical c <> clean_order_number o) cells).
Proof.
  intros cells o F.
  assert (A : forall c, In c cells -> clean_existing c = canonical c).
  { intros c I. apply clean_existing_agrees.
    exact (proj1 (Forall_forall _ _) F c I). }
  split.
  - intros i. rewrite existing_row_idx_first. split.
    + intros [(c & Hc & E) N]. split.
      * exists c. split; [exact Hc|].
        now rewrite <- (A c (nth_error_In _ _ Hc)).
      * intros j c' Hj Hc'. rewrite <- (A c' (nth_error_In _ _ Hc')).
        now apply (N j).
    + intros [(c & Hc & E) N]. split.
      * exists c. split; [exact Hc|].
        now rewrite (A c (nth_error_In _ _ Hc)).
      * intros j c' Hj Hc'. rewrite (A c' (nth_error_In _ _ Hc')).
        now apply (N j).
  - rewrite existing_row_idx_none. cbn [cells_of].
    rewrite !Forall_forall. split; intros H c I; specialize (H c I).
    + now rewrite <- (A c I).
    + now rewrite (A c I).
Qed.

Lemma search_agrees_on_ledger_without_inner_hash_witness :
  existing_row_idx (Some [Some "7001"; Some " #1001"; Some "1001"])
    (clean_order_number "#1001") = Some 1.
Proof.
  refine (proj2 (proj1 (search_agrees_on_ledger_without_inner_hash
                          [Some "7001"; Some " #1001"; Some "1001"] "#1001" _) 1)
            (conj (ex_intro _ (Some " #1001") (conj eq_refl eq_refl)) _)).
  - repeat constructor.
  - intros [|j] c Hj Hc; [injection Hc as <-; vm_compute; discriminate | lia].
Defined.





End LedgerSearch.
